(** * password_checker.py: a shallow embedding and its verified properties

    The development follows the layout of the Python module:
    - [PyStr]: Python [str] values as sequences of Unicode code points, with
      the [str] methods the module calls ([islower], [isupper], [isdigit],
      [isspace], [lower], [strip], [startswith], [in]);
    - [Loader]: [FALLBACK_COMMON] and [load_common_passwords];
    - [Estimator]: [charset_size], [entropy_bits],
      [avg_crack_time_seconds_from_bits], [strength_label];
    - [Advisor]: [suggest_improvements], [contains_common_part];
    - [PyFloat] and [Formatter]: binary64 values, [human_readable];
    - [Renderer]: [show_strength_visual] and the visual step of
      [check_password_and_show];
    - [Interpretation]: [human_interpretation];
    - [Report]: [SCENARIOS], the whole of [check_password_and_show] and
      [main], on binary64 values, with the C library's [log2] and power
      taken as given.

    Numbers.  A Python [int] is a [Z].  A Python [float] is modelled in two
    ways, depending on what the code does with it: where the code only uses
    IEEE-754 operations (comparison, [*], [/], [//], formatting) it is a
    binary64 value of [SpecFloat], computed bit for bit; where the code calls
    the C library ([math.log2], [2 ** bits]) it is a real number, so
    rounding is left out of the statements made there; the [OverflowError]
    of [2 ** bits] is kept.  [Report] has the same functions on binary64
    values, with the C library's results taken as given. *)

From Stdlib Require Import ZArith NArith QArith Qround Reals Qreals Psatz Lia.
From Stdlib Require Import List Ascii String DecimalString.
From Stdlib Require Import Floats.SpecFloat.
From stdpp Require Import gmap sets list.
Import ListNotations.

Local Open Scope Z_scope.

(** ** Python strings *)

Module PyStr.

(** A [str] is a sequence of code points. *)
Abbreviation pystr := (list N).

(** An ASCII literal of the source, read as code points. *)
Definition py (s : string) : pystr :=
  map N_of_ascii (list_ascii_of_string s).

Definition len (s : pystr) : Z := Z.of_nat (length s).

(** What Python's Unicode tables answer for code points outside ASCII.
    [uni_lower] is [str.lower] on a whole string that holds such a code
    point (lower-casing may change the length and looks at the context). *)
Record UnicodeData := {
  uni_islower : N -> bool;
  uni_isupper : N -> bool;
  uni_isdigit : N -> bool;
  uni_isspace : N -> bool;
  uni_lower : pystr -> pystr
}.

(** The tables that know no cased letter, digit or space outside ASCII. *)
Definition ascii_only : UnicodeData := {|
  uni_islower := fun _ => false;
  uni_isupper := fun _ => false;
  uni_isdigit := fun _ => false;
  uni_isspace := fun _ => false;
  uni_lower := fun s => s
|}.

Definition is_ascii (c : N) : bool := (c <? 128)%N.

Definition between (lo hi c : N) : bool := ((lo <=? c) && (c <=? hi))%N.

(** [string.ascii_lowercase], [string.ascii_uppercase], [string.digits],
    [string.punctuation] *)
Definition ascii_lowercase : pystr := py "abcdefghijklmnopqrstuvwxyz".
Definition ascii_uppercase : pystr := py "ABCDEFGHIJKLMNOPQRSTUVWXYZ".
Definition digits : pystr := py "0123456789".
Definition punctuation : pystr :=
  py "!" ++ [34%N] ++ py "#$%&'()*+,-./:;<=>?@[\]^_`{|}~".

(** The printable ASCII characters that are neither letters, digits nor the
    space, by their codes. *)
Definition punctuation_code (c : N) : bool :=
  between 33 47 c || between 58 64 c || between 91 96 c || between 123 126 c.

(** [c in s] for a one-character [c] *)
Definition char_in (c : N) (s : pystr) : bool := existsb (N.eqb c) s.

(** [any(f(c) for c in s)] *)
Definition any (f : N -> bool) (s : pystr) : bool := existsb f s.

Section Methods.
Variable U : UnicodeData.

(** [c.islower()]: ASCII a-z, else the Unicode table *)
Definition islower (c : N) : bool :=
  if is_ascii c then between 97 122 c else uni_islower U c.

(** [c.isupper()]: ASCII A-Z, else the Unicode table *)
Definition isupper (c : N) : bool :=
  if is_ascii c then between 65 90 c else uni_isupper U c.

(** [c.isdigit()]: ASCII 0-9, else the Unicode table *)
Definition isdigit (c : N) : bool :=
  if is_ascii c then between 48 57 c else uni_isdigit U c.

(** [c.isspace()]: in ASCII the characters 9-13, 28-31 and 32 *)
Definition isspace (c : N) : bool :=
  if is_ascii c then between 9 13 c || between 28 31 c || (c =? 32)%N
  else uni_isspace U c.

Definition ascii_lower (c : N) : N :=
  if between 65 90 c then (c + 32)%N else c.

(** [s.lower()] *)
Definition lower (s : pystr) : pystr :=
  if forallb is_ascii s then map ascii_lower s else uni_lower U s.

Fixpoint lstrip (s : pystr) : pystr :=
  match s with
  | c :: t => if isspace c then lstrip t else s
  | [] => []
  end.

Definition rstrip (s : pystr) : pystr := rev (lstrip (rev s)).

(** [s.strip()] *)
Definition strip (s : pystr) : pystr := rstrip (lstrip s).
End Methods.

(** [s.startswith(prefix)] *)
Fixpoint startswith (s prefix : pystr) : bool :=
  match prefix, s with
  | [], _ => true
  | _ :: _, [] => false
  | p :: prefix', c :: s' => (p =? c)%N && startswith s' prefix'
  end.

(** [sub in s] *)
Fixpoint str_in (sub s : pystr) : bool :=
  startswith s sub ||
  match s with
  | [] => false
  | _ :: t => str_in sub t
  end.

End PyStr.
Import PyStr.

(** ** The common-password set and its loader *)

Module Loader.

(** [FALLBACK_COMMON] *)
Definition FALLBACK_COMMON : gset pystr :=
  {[ py "123456"; py "password"; py "123456789"; py "12345678"; py "12345";
     py "qwerty"; py "abc123"; py "password1"; py "111111"; py "1234567";
     py "iloveyou"; py "admin" ]}.

(** What iterating over the opened file yields: the lines, until the end
    of the file or until reading raises (a decoding or an I/O error). *)
Inductive file_lines :=
  | Eof
  | ReadError
  | Line (line : pystr) (rest : file_lines).

(** The word list [common_passwords.txt] next to the module. *)
Inductive resource :=
  | Missing
  | OpenError
  | Opened (f : file_lines).

Section Load.
Variable U : UnicodeData.

(** [not w or w.startswith("#")] *)
Definition skipped (w : pystr) : bool :=
  match w with [] => true | _ => false end || startswith w (py "#").

(** The body of the [with] block; [None] when an exception is raised. *)
Fixpoint read_words (f : file_lines) (words : gset pystr)
  : option (gset pystr) :=
  match f with
  | Eof => Some words
  | ReadError => None
  | Line line rest =>
      let w := strip U line in
      if skipped w then read_words rest words
      else read_words rest ({[ lower U w ]} ∪ words)
  end.

Definition load_common_passwords (p : resource) : gset pystr :=
  match p with
  | Missing => FALLBACK_COMMON
  | OpenError => FALLBACK_COMMON
  | Opened f =>
      match read_words f ∅ with
      | None => FALLBACK_COMMON
      | Some words =>
          if bool_decide (words = ∅) then FALLBACK_COMMON else words
      end
  end.

(** What the specification says of a word-list file: whether reading it
    fails, the lines read, and whether a line is blank or a comment. *)
Fixpoint unreadable (f : file_lines) : bool :=
  match f with
  | Eof => false
  | ReadError => true
  | Line _ rest => unreadable rest
  end.

Fixpoint lines_of (f : file_lines) : list pystr :=
  match f with
  | Eof | ReadError => []
  | Line line rest => line :: lines_of rest
  end.

Definition blank_or_comment (line : pystr) : bool :=
  let w := strip U line in
  match w with
  | [] => true
  | c :: _ => (c =? 35)%N
  end.
End Load.

End Loader.
Import Loader.

(** ** Exceptions *)

Module Exceptions.

(** A Python exception, by the name of its class.  [Exception c] is an
    instance of a subclass of [Exception], which a handler
    [except Exception] catches; [BaseException c] is an instance of one of
    the other classes ([KeyboardInterrupt], [SystemExit],
    [GeneratorExit]), which such a handler lets through. *)
Inductive exn :=
  | Exception (class : string)
  | BaseException (class : string).

End Exceptions.
Import Exceptions.

(** ** Charset size, entropy, crack time, label *)

Module Estimator.

Section Charset.
Variable U : UnicodeData.

Definition charset_size (password : pystr) : Z :=
  let cs := 0 in
  let cs := if any (islower U) password then cs + len ascii_lowercase else cs in
  let cs := if any (isupper U) password then cs + len ascii_uppercase else cs in
  let cs := if any (isdigit U) password then cs + len digits else cs in
  let cs := if any (fun c => char_in c punctuation) password
            then cs + len punctuation else cs in
  let cs := if any (isspace U) password then cs + 1 else cs in
  if cs =? 0 then 1 else cs.

(** The character classes as the specification lists them: whether the
    class occurs in the password, and the size of its alphabet. *)
Definition spec_classes (password : pystr) : list (bool * Z) :=
  [ (any (islower U) password, 26);
    (any (isupper U) password, 26);
    (any (isdigit U) password, 10);
    (any (fun c => char_in c punctuation) password, 32);
    (any (isspace U) password, 1) ].

Definition spec_charset_size (password : pystr) : Z :=
  let present := List.filter fst (spec_classes password) in
  match present with
  | [] => 1
  | _ => fold_right Z.add 0 (map snd present)
  end.

(** [math.log2] on the reals *)
Definition log2 (x : R) : R := (ln x / ln 2)%R.

Definition entropy_bits (password : pystr) : R :=
  let cs := charset_size password in
  if cs <=? 1 then 0%R
  else (IZR (len password) * log2 (IZR cs))%R.
End Charset.

(** Both arguments are annotated [float]: they are finite binary64
    numbers, taken as the real numbers they stand for.  [2 ** bits] is
    evaluated first: from 1024 bits on the power is beyond every binary64
    number and the operator raises [OverflowError]; then the division
    raises [ZeroDivisionError] for a zero rate.  The value is the real
    number, as for [entropy_bits]: the float returned is its rounding. *)
Definition avg_crack_time_seconds_from_bits (bits attempts_per_second : R)
  : exn + R :=
  if Rle_dec 1024 bits then inl (Exception "OverflowError")
  else
    let combos := Rpower 2 bits in
    if Req_dec_T attempts_per_second 0 then
      inl (Exception "ZeroDivisionError")
    else inr ((combos / 2) / attempts_per_second)%R.

Inductive StrengthLabel := Weak | Okay | Good | Very_strong.

Definition strength_label (bits : R) : StrengthLabel :=
  if Rlt_dec bits 28 then Weak
  else if Rlt_dec bits 36 then Okay
  else if Rlt_dec bits 60 then Good
  else Very_strong.

Definition label_text (l : StrengthLabel) : string :=
  match l with
  | Weak => "Weak"
  | Okay => "Okay"
  | Good => "Good"
  | Very_strong => "Very strong"
  end.

End Estimator.
Import Estimator.

(** ** Advice *)

Module Advisor.

(** The suggestion texts, as the UTF-8 text of the source. *)
Definition MSG_LONGER : string := "➕ Make it longer (12+ characters).".
Definition MSG_LOWER : string := "🔡 Add lowercase letters.".
Definition MSG_UPPER : string := "🔠 Add uppercase letters.".
Definition MSG_DIGIT : string := "🔢 Add numbers.".
Definition MSG_SYMBOL : string := "🔣 Add symbols (e.g. !?@#).".
Definition MSG_COMMON : string :=
  "⚠️  Don't use common or very short passwords.".
Definition MSG_NICE : string :=
  "✅ Nice! Consider a passphrase or a password manager.".

Section Advice.
(** The module-level [COMMON_PASSWORDS], set once when the module loads. *)
Variable COMMON_PASSWORDS : gset pystr.
Variable U : UnicodeData.

(** The test [password.lower() in COMMON_PASSWORDS] of lines 124 and 172 *)
Definition is_common (password : pystr) : bool :=
  bool_decide (lower U password ∈ COMMON_PASSWORDS).

(** [if cond: suggestions.append(msg)] *)
Definition append_if (cond : bool) (msg : string) (suggestions : list string)
  : list string :=
  if cond then suggestions ++ [msg] else suggestions.

Definition suggest_improvements (password : pystr) : list string :=
  let suggestions := [] in
  let suggestions := append_if (len password <? 12) MSG_LONGER suggestions in
  let suggestions :=
    append_if (negb (any (islower U) password)) MSG_LOWER suggestions in
  let suggestions :=
    append_if (negb (any (isupper U) password)) MSG_UPPER suggestions in
  let suggestions :=
    append_if (negb (any (isdigit U) password)) MSG_DIGIT suggestions in
  let suggestions :=
    append_if (negb (any (fun c => char_in c punctuation) password))
              MSG_SYMBOL suggestions in
  let suggestions :=
    append_if (is_common password || (len password <=? 4))
              MSG_COMMON suggestions in
  match suggestions with
  | [] => suggestions ++ [MSG_NICE]
  | _ => suggestions
  end.

(** The loop returns at the first hit, so the result is whether some
    entry of the set passes the test; the order of iteration is free. *)
Definition contains_common_part (password : pystr) : bool :=
  let low := lower U password in
  existsb (fun common => str_in common low && (3 <=? len common))
          (elements COMMON_PASSWORDS).

(** The suggestion rules as the specification lists them: the conditions
    in their order, each with its message. *)
Definition spec_rules (password : pystr) : list (bool * string) :=
  [ (len password <? 12, MSG_LONGER);
    (negb (any (islower U) password), MSG_LOWER);
    (negb (any (isupper U) password), MSG_UPPER);
    (negb (any (isdigit U) password), MSG_DIGIT);
    (negb (any (fun c => char_in c punctuation) password), MSG_SYMBOL);
    (is_common password || (len password <=? 4), MSG_COMMON) ].

Definition spec_suggestions (password : pystr) : list string :=
  match map snd (List.filter fst (spec_rules password)) with
  | [] => [MSG_NICE]
  | triggered => triggered
  end.
End Advice.

End Advisor.
Import Advisor.

(** ** Python floats as binary64 values *)

Module PyFloat.

Abbreviation float := spec_float.

Definition prec : Z := 53.
Definition emax : Z := 1024.

(** An [int] operand of a float operation, converted (rounded to nearest). *)
Definition of_int (n : Z) : float := binary_normalize prec emax n 0 false.

Definition fmul : float -> float -> float := SFmul prec emax.
Definition fdiv : float -> float -> float := SFdiv prec emax.

(** The number a float stands for. *)
Inductive exact :=
  | Nan
  | Inf (negative : bool)
  | Fin (q : Q).

Definition exact_of (x : float) : exact :=
  match x with
  | S754_nan => Nan
  | S754_infinity s => Inf s
  | S754_zero _ => Fin 0
  | S754_finite s m e => Fin (inject_Z (cond_Zopp s (Zpos m)) * Qpower 2 e)
  end.

Definition exact_int (k : Z) : exact := Fin (inject_Z k).

(** [a < b] on what the operands stand for; false when one is a NaN. *)
Definition exact_lt (a b : exact) : bool :=
  match a, b with
  | Nan, _ | _, Nan => false
  | Inf s1, Inf s2 => s1 && negb s2
  | Inf s, Fin _ => s
  | Fin _, Inf s => negb s
  | Fin p, Fin q => match (p ?= q)%Q with Lt => true | _ => false end
  end.

(** [x < y] between floats, and [x < k], which Python decides on the exact
    values of the float and the [int] *)
Definition flt (x y : float) : bool := exact_lt (exact_of x) (exact_of y).
Definition flt_int (x : float) (k : Z) : bool :=
  exact_lt (exact_of x) (exact_int k).

(** The builtins [max(x, y)] and [min(x, y)]: the first argument is kept
    unless the second is strictly beyond it. *)
Definition py_max (x y : float) : float := if flt x y then y else x.
Definition py_min (x y : float) : float := if flt y x then y else x.

(** [int(x // 2)]: halving is exact in binary, so this is the floor of
    half the value; [int] raises on a NaN ([ValueError]) and on an infinity
    ([OverflowError]), which is [None] here. *)
Definition int_floordiv2 (x : float) : option Z :=
  match exact_of x with
  | Fin q => Some (Qfloor (q / 2))
  | _ => None
  end.

(** Rounding a non-negative rational to the nearest integer, ties to even. *)
Definition round_half_even (q : Q) : Z :=
  let d := Zpos (Qden q) in
  let a := Qnum q / d in
  let r := Qnum q mod d in
  match 2 * r ?= d with
  | Lt => a
  | Gt => a + 1
  | Eq => if Z.even a then a else a + 1
  end.

Definition decimal (n : Z) : string :=
  NilZero.string_of_uint (N.to_uint (Z.to_N n)).

(** The digits of [n / 10^d] in fixed notation with [d] decimals. *)
Definition fixed (d : nat) (n : Z) : string :=
  match d with
  | O => decimal n
  | _ =>
      let frac := decimal (n mod 10 ^ Z.of_nat d) in
      (decimal (n / 10 ^ Z.of_nat d) ++ "." ++
       string_of_list_ascii (repeat "0"%char (d - String.length frac)) ++
       frac)%string
  end.

Definition sign_text (negative : bool) : string :=
  if negative then "-" else "".

(** [format(x, ".<d>f")]: the exact value rounded to [d] decimals, ties to
    even; the sign bit is printed also for a zero. *)
Definition format_f (d : nat) (x : float) : string :=
  match x with
  | S754_nan => "nan"
  | S754_infinity s => (sign_text s ++ "inf")%string
  | S754_zero s => (sign_text s ++ fixed d 0)%string
  | S754_finite s m e =>
      (sign_text s ++
       fixed d (round_half_even
                  (inject_Z (Zpos m) * Qpower 2 e * inject_Z (10 ^ Z.of_nat d)))
      )%string
  end.

End PyFloat.
Import PyFloat.

(** ** Durations in words *)

Module Formatter.

Definition human_readable (seconds : float) : string :=
  if flt_int seconds 1 then
    (format_f 0 (fmul seconds (of_int 1000)) ++ " ms")%string
  else
    let minute := 60 in
    let hour := 3600 in
    let day := 86400 in
    let year := 365 * day in
    let century := 100 * year in
    if flt_int seconds minute then
      (format_f 1 seconds ++ " s")%string
    else if flt_int seconds hour then
      (format_f 1 (fdiv seconds (of_int minute)) ++ " min")%string
    else if flt_int seconds day then
      (format_f 1 (fdiv seconds (of_int hour)) ++ " h")%string
    else if flt_int seconds year then
      (format_f 1 (fdiv seconds (of_int day)) ++ " days")%string
    else if flt_int seconds century then
      (format_f 1 (fdiv seconds (of_int year)) ++ " years")%string
    else
      (format_f 1 (fdiv seconds (of_int century)) ++ " centuries")%string.

(** The units as the specification lists them, in ascending order: each
    with the number of seconds below which it is chosen (none for the
    last), its suffix, its number of decimals and the value printed. *)
Inductive time_unit :=
  | Milliseconds | Seconds | Minutes | Hours | Days | Years | Centuries.

Definition spec_units : list time_unit :=
  [Milliseconds; Seconds; Minutes; Hours; Days; Years; Centuries].

Definition spec_limit (u : time_unit) : option Z :=
  match u with
  | Milliseconds => Some 1
  | Seconds => Some 60
  | Minutes => Some (60 * 60)
  | Hours => Some (24 * 60 * 60)
  | Days => Some (365 * (24 * 60 * 60))
  | Years => Some (100 * (365 * (24 * 60 * 60)))
  | Centuries => None
  end.

Definition spec_suffix (u : time_unit) : string :=
  match u with
  | Milliseconds => "ms"
  | Seconds => "s"
  | Minutes => "min"
  | Hours => "h"
  | Days => "days"
  | Years => "years"
  | Centuries => "centuries"
  end.

Definition spec_decimals (u : time_unit) : nat :=
  match u with Milliseconds => 0 | _ => 1 end.

Definition spec_scaled (u : time_unit) (seconds : float) : float :=
  match u with
  | Milliseconds => fmul seconds (of_int 1000)
  | Seconds => seconds
  | Minutes => fdiv seconds (of_int 60)
  | Hours => fdiv seconds (of_int (60 * 60))
  | Days => fdiv seconds (of_int (24 * 60 * 60))
  | Years => fdiv seconds (of_int (365 * (24 * 60 * 60)))
  | Centuries => fdiv seconds (of_int (100 * (365 * (24 * 60 * 60))))
  end.

(** The first unit, in ascending order, whose limit the value is below. *)
Definition spec_unit (v : exact) : time_unit :=
  match
    find (fun u => match spec_limit u with
                   | Some k => exact_lt v (exact_int k)
                   | None => true
                   end) spec_units
  with
  | Some u => u
  | None => Centuries
  end.

Definition spec_human_readable (seconds : float) : string :=
  let u := spec_unit (exact_of seconds) in
  (format_f (spec_decimals u) (spec_scaled u seconds) ++ " " ++ spec_suffix u)
  %string.

(** The shape of a number printed with [d] decimals: an optional sign,
    one digit or more and, when [d] is not zero, a point and [d] digits. *)
Definition is_digit (a : ascii) : bool :=
  (48 <=? nat_of_ascii a)%nat && (nat_of_ascii a <=? 57)%nat.

Definition unsigned_shape (d : nat) (s : list ascii) : bool :=
  match d with
  | O => negb (Nat.eqb (length s) 0) && forallb is_digit s
  | _ =>
      let n := length s in
      (d + 2 <=? n)%nat &&
      forallb is_digit (firstn (n - d - 1) s) &&
      match nth_error s (n - d - 1) with
      | Some a => Ascii.eqb a "."
      | None => false
      end &&
      forallb is_digit (skipn (n - d) s)
  end.

Definition fixed_shape (d : nat) (s : string) : bool :=
  match list_ascii_of_string s with
  | a :: t => if Ascii.eqb a "-" then unsigned_shape d t
              else unsigned_shape d (a :: t)
  | [] => false
  end.

End Formatter.
Import Formatter.

(** ** The visual bar *)

Module Renderer.

(** What the run has done so far: the lines printed, and how many times
    drawing the chart was attempted. *)
Record world := {
  stdout : list string;
  attempts : nat
}.

Inductive result :=
  | Returned (w : world)
  | Raised (e : exn) (w : world).

(** The plotting library: whether it was imported, and what each attempt
    at drawing does ([None]: the window is shown; [Some e]: it raises). *)
Record matplotlib := {
  MATPLOTLIB_AVAILABLE : bool;
  draw : nat -> option exn
}.

Definition print (line : string) (w : world) : world :=
  {| stdout := stdout w ++ [line]; attempts := attempts w |}.

Definition newline : string := String (ascii_of_nat 10) "".

(** [c * n] for a one-character string; empty when [n] is negative *)
Definition times (c : ascii) (n : Z) : string :=
  string_of_list_ascii (repeat c (Z.to_nat n)).

(** The line printed by the text branch. *)
Definition ascii_bar (blocks : Z) (perc : float) : string :=
  (newline ++ "Visual: [" ++ times "#" blocks ++ times "-" (50 - blocks) ++
   "] " ++ format_f 0 perc ++ "/100")%string.

Definition percentage (bits : float) : float :=
  py_min (py_max (fmul (fdiv bits (of_int 80)) (of_int 100)) (of_int 0))
         (of_int 100).

Section Visual.
Variable plt : matplotlib.

Definition show_strength_visual (bits : float) (label : string) (w : world)
  : result :=
  let perc := percentage bits in
  if MATPLOTLIB_AVAILABLE plt then
    let w' := {| stdout := stdout w; attempts := S (attempts w) |} in
    match draw plt (attempts w) with
    | Some e => Raised e w'
    | None => Returned w'
    end
  else
    match int_floordiv2 perc with
    | None => Raised (Exception "ValueError") w
    | Some blocks => Returned (print (ascii_bar blocks perc) w)
    end.

(** [check_password_and_show] from the point where [bits] and [label]
    are known: [report] stands for the lines that lines 167-198 have
    printed when the visual step is reached. *)
Definition check_password_and_show (report : list string) (bits : float)
    (label : string) (interactive : bool) (w : world) : result :=
  let w := fold_left (fun w line => print line w) report w in
  if interactive then
    match show_strength_visual bits label w with
    | Raised (Exception _) w' => show_strength_visual bits label w'
    | Raised e w' => Raised e w'
    | Returned w' => Returned w'
    end
  else Returned w.
End Visual.

(** Whether the text bar is among the lines printed. *)
Definition is_bar (line : string) : bool :=
  String.prefix (newline ++ "Visual: [") line.

Definition bar_printed (w : world) : bool := existsb is_bar (stdout w).

(** A plotting library that is installed and whose drawing always fails. *)
Definition broken_display : matplotlib := {|
  MATPLOTLIB_AVAILABLE := true;
  draw := fun _ => Some (Exception "RuntimeError")
|}.

(** A plotting library that is installed and whose window is interrupted
    from the keyboard. *)
Definition interrupted_display : matplotlib := {|
  MATPLOTLIB_AVAILABLE := true;
  draw := fun _ => Some (BaseException "KeyboardInterrupt")
|}.

(** No plotting library. *)
Definition no_matplotlib : matplotlib := {|
  MATPLOTLIB_AVAILABLE := false;
  draw := fun _ => None
|}.

Definition start : world := {| stdout := []; attempts := 0 |}.

End Renderer.
Import Renderer.

(** ** The qualitative reading of a duration *)

Module Interpretation.

Definition human_interpretation (seconds : float) : string :=
  if flt_int seconds 1 then "Broken instantly."
  else if flt_int seconds 60 then "Broken in under a minute."
  else if flt_int seconds 3600 then "Broken in under an hour."
  else if flt_int seconds 86400 then "Broken within a day."
  else if flt_int seconds (365 * 86400) then "Broken in months/years."
  else if flt_int seconds (100 * 365 * 86400) then
    "Very long to break (years)."
  else "Practically impossible to break.".

(** The sentence that goes with each unit of [human_readable]. *)
Definition unit_interpretation (u : time_unit) : string :=
  match u with
  | Milliseconds => "Broken instantly."
  | Seconds => "Broken in under a minute."
  | Minutes => "Broken in under an hour."
  | Hours => "Broken within a day."
  | Days => "Broken in months/years."
  | Years => "Very long to break (years)."
  | Centuries => "Practically impossible to break."
  end.

End Interpretation.
Import Interpretation.

(** ** Orders and observations used to state properties *)

Module Observe.

(** The labels from the weakest to the strongest. *)
Definition label_rank (l : StrengthLabel) : Z :=
  match l with
  | Weak => 0
  | Okay => 1
  | Good => 2
  | Very_strong => 3
  end.

(** The state a run ends in, and whether it ended without an exception. *)
Definition result_world (r : result) : world :=
  match r with
  | Returned w => w
  | Raised _ w => w
  end.

Definition returned (r : result) : bool :=
  match r with
  | Returned _ => true
  | Raised _ _ => false
  end.

End Observe.
Import Observe.

(** ** The report and the command line *)

Module Report.

(** The C library behind [math.log2] and the float power: [libm_log2 cs]
    is the float [math.log2(cs)] returns for the [int] [cs], and
    [libm_pow2 bits] the float [2 ** bits] evaluates to, or [None] when it
    raises [OverflowError].  Their results are not fixed bit for bit by
    Python, so they are taken as given. *)
Record libm := {
  libm_log2 : Z -> float;
  libm_pow2 : float -> option float
}.

(** What the operator's terminal does: whether standard input is a
    terminal, what [getpass.getpass] gives and what [input] gives (a
    string, or the exception raised). *)
Record terminal := {
  isatty : bool;
  getpass_reply : exn + pystr;
  input_reply : exn + pystr
}.

(** [SCENARIOS]; the rates [1e9] and [1e11] are the floats of these
    integers. *)
Definition SCENARIOS : list (string * Z) :=
  [ ("Online, very limited (login forms)"%string, 10);
    ("Online, lightly limited (older sites)"%string, 100);
    ("Local attack (single GPU)"%string, 1000000000);
    ("Big attacker (GPU cluster)"%string, 100000000000) ].

(** The text of an ASCII [str], for printing. *)
Definition str_text (s : pystr) : string :=
  string_of_list_ascii (map ascii_of_N s).

(** [f"{n:,}"]: the digits in groups of three, from the right. *)
Fixpoint group3 (rev_digits : list ascii) (k : nat) : list ascii :=
  match rev_digits with
  | [] => []
  | d :: t =>
      match k with
      | 3%nat => ","%char :: d :: group3 t 1
      | _ => d :: group3 t (S k)
      end
  end.

Definition with_commas (n : Z) : string :=
  (sign_text (n <? 0)%Z ++
   string_of_list_ascii
     (rev (group3 (rev (list_ascii_of_string (decimal (Z.abs n)))) 0)))%string.

Definition WARN_COMMON : string :=
  (newline ++ "‼️  WARNING: This is a common password. Very easy to break. ‼️")%string.
Definition WARN_PART : string :=
  (newline ++ "⚠️  Warning: Your password contains common word/number parts. ⚠️")%string.

Section Run.
Variable plt : matplotlib.
Variable M : libm.
Variable COMMON_PASSWORDS : gset pystr.
Variable U : UnicodeData.

(** [entropy_bits] as the machine computes it *)
Definition entropy_bits (password : pystr) : float :=
  let cs := charset_size U password in
  if cs <=? 1 then of_int 0
  else fmul (of_int (len password)) (libm_log2 M cs).

(** [avg_crack_time_seconds_from_bits] as the machine computes it *)
Definition avg_crack_time_seconds_from_bits (bits : float)
    (attempts_per_second : Z) : exn + float :=
  match libm_pow2 M bits with
  | None => inl (Exception "OverflowError")
  | Some combos =>
      if attempts_per_second =? 0 then inl (Exception "ZeroDivisionError")
      else inr (fdiv (fdiv combos (of_int 2)) (of_int attempts_per_second))
  end.

(** [strength_label] on a float *)
Definition strength_label (bits : float) : StrengthLabel :=
  if flt_int bits 28 then Weak
  else if flt_int bits 36 then Okay
  else if flt_int bits 60 then Good
  else Very_strong.

Definition status_emoji (label : StrengthLabel) : string :=
  match label with
  | Good | Very_strong => "✅"
  | _ => "⚠️ "
  end.

Definition quick_advice (label : StrengthLabel) : string :=
  match label with
  | Weak => "Weak. Change it now."
  | Okay => "Okay. Needs improvement."
  | Good => "Good. You can still improve."
  | Very_strong => "Very strong. Nice!"
  end.

Definition scenario_line (desc : string) (r : Z) (secs : float) : string :=
  ("- " ++ desc ++ " (" ++ with_commas r ++ "/s): " ++
   human_readable secs ++ " — " ++ human_interpretation secs)%string.

(** The loop over the scenarios; an exception of the crack-time function
    leaves it. *)
Fixpoint print_scenarios (bits : float) (scenarios : list (string * Z))
    (w : world) : result :=
  match scenarios with
  | [] => Returned w
  | (desc, r) :: rest =>
      match avg_crack_time_seconds_from_bits bits r with
      | inl e => Raised e w
      | inr secs =>
          print_scenarios bits rest (print (scenario_line desc r secs) w)
      end
  end.

Definition print_all (lines : list string) (w : world) : world :=
  fold_left (fun w line => print line w) lines w.

Definition check_password_and_show (password : pystr) (interactive : bool)
    (w : world) : result :=
  let bits := entropy_bits password in
  let label := strength_label bits in
  let w := print (status_emoji label ++ " Status: " ++ label_text label) w in
  let w := print ("🔢 Length: " ++ decimal (len password) ++
                  " characters") w in
  let w := print ("(Internal score: " ++ format_f 1 bits ++
                  " — not necessary to understand.)") w in
  let w :=
    if is_common COMMON_PASSWORDS U password then print WARN_COMMON w
    else if contains_common_part COMMON_PASSWORDS U password
         then print WARN_PART w
         else w in
  let w := print (newline ++ "--- Scenarios (how fast it can be cracked) ---") w in
  match print_scenarios bits SCENARIOS w with
  | Raised e w => Raised e w
  | Returned w =>
      let w := print (newline ++ "--- Quick advice ---") w in
      let w := print (quick_advice label) w in
      let w := print (newline ++ "Tips:") w in
      let w := print_all (suggest_improvements COMMON_PASSWORDS U password) w in
      let w := print (newline ++ "🔐 Final tip: Use MFA (Multi-Factor Authentication) when possible. 👍") w in
      if interactive then
        match show_strength_visual plt bits (label_text label) w with
        | Raised (Exception _) w' =>
            show_strength_visual plt bits (label_text label) w'
        | Raised e w' => Raised e w'
        | Returned w' => Returned w'
        end
      else Returned w
  end.

Definition main (t : terminal) (w : world) : result :=
  if isatty t then
    let w := print "🔒 Simple Password Check 🔒" w in
    let w := print "" w in
    let w := print "Enter your password. The input is hidden and not stored." w in
    let pw :=
      match getpass_reply t with
      | inr pw => inr pw
      | inl (Exception _) => input_reply t
      | inl e => inl e
      end in
    match pw with
    | inl e => Raised e w
    | inr [] => Returned (print "No password entered. Bye." w)
    | inr pw => check_password_and_show pw true w
    end
  else
    let demo := py "Password1!" in
    let w := print ("Demo run (no terminal input). Sample password: " ++ str_text demo ++ newline) w in
    check_password_and_show demo true w.
End Run.

(** What the report shows of a password: its length, the classes that
    occur in it and the two answers about the common set. *)
Definition same_profile (COMMON_PASSWORDS : gset pystr) (U : UnicodeData)
    (p q : pystr) : Prop :=
  len p = len q /\
  any (islower U) p = any (islower U) q /\
  any (isupper U) p = any (isupper U) q /\
  any (isdigit U) p = any (isdigit U) q /\
  any (fun c => char_in c punctuation) p =
  any (fun c => char_in c punctuation) q /\
  any (isspace U) p = any (isspace U) q /\
  is_common COMMON_PASSWORDS U p = is_common COMMON_PASSWORDS U q /\
  contains_common_part COMMON_PASSWORDS U p =
  contains_common_part COMMON_PASSWORDS U q.

(** Two C libraries for examples: one that works on whole bits (the
    logarithm rounded down, the power of the bits rounded down, overflow
    from 1024 bits on), and one whose power always overflows. *)
Definition toy_libm : libm := {|
  libm_log2 := fun cs => of_int (Z.log2 cs);
  libm_pow2 := fun bits =>
    match exact_of bits with
    | Fin q => if Qfloor q <? 1024 then Some (of_int (2 ^ Qfloor q)) else None
    | _ => None
    end
|}.

Definition overflowing_libm : libm := {|
  libm_log2 := fun cs => of_int (Z.log2 cs);
  libm_pow2 := fun _ => None
|}.

End Report.

(** * Properties *)

(** ** Strings *)

Section StringFacts.
Variable U : UnicodeData.

Lemma alphabet_sizes :
  len ascii_lowercase = 26 /\ len ascii_uppercase = 26 /\
  len digits = 10 /\ len punctuation = 32.
Proof. repeat split; reflexivity. Qed.

Lemma punctuation_table :
  forallb (fun c => Bool.eqb (char_in c punctuation) (punctuation_code c))
          (map N.of_nat (seq 0 128)) = true.
Proof. vm_compute. reflexivity. Qed.

(** [string.punctuation] holds the printable ASCII characters that are
    neither letters, digits nor the space. *)
Lemma punctuation_codes (c : N) :
  char_in c punctuation = punctuation_code c.
Proof.
  destruct (N.ltb_spec c 128) as [Hlt | Hge].
  - apply Bool.eqb_prop.
    apply (proj1 (forallb_forall _ _) punctuation_table).
    rewrite <- (N2Nat.id c). apply in_map, in_seq. lia.
  - transitivity false.
    + apply not_true_is_false. unfold char_in. rewrite existsb_exists.
      intros [x [Hin Heq]]. apply N.eqb_eq in Heq. subst x.
      vm_compute in Hin.
      repeat (destruct Hin as [Hin | Hin]; [subst c; lia |]).
      destruct Hin.
    + symmetry. unfold punctuation_code, between.
      repeat (apply orb_false_intro); apply andb_false_intro2, N.leb_gt; lia.
Qed.

Lemma punctuation_NoDup : NoDup punctuation.
Proof. apply (bool_decide_unpack (NoDup punctuation)). vm_compute. exact I. Qed.

Lemma lower_ascii (s : pystr) :
  forallb is_ascii s = true -> lower U s = map ascii_lower s.
Proof. unfold lower. intros ->. reflexivity. Qed.

Lemma startswith_prefix (s p : pystr) :
  startswith s p = true <-> exists t, s = p ++ t.
Proof.
  revert s. induction p as [| a p IH]; intros s; simpl.
  - split; [intros _; exists s; reflexivity |].
    intros _. destruct s; reflexivity.
  - destruct s as [| c s].
    + split; [discriminate | intros [t Ht]; discriminate Ht].
    + simpl. rewrite andb_true_iff, N.eqb_eq, IH. split.
      * intros [-> [t ->]]. exists t. reflexivity.
      * intros [t Ht]. injection Ht as -> ->. split; [reflexivity | eauto].
Qed.

Lemma str_in_unfold (sub s : pystr) :
  str_in sub s =
  startswith s sub || match s with [] => false | _ :: t => str_in sub t end.
Proof. destruct s; reflexivity. Qed.

(** [sub in s] holds exactly when [sub] occurs as a contiguous part. *)
Lemma str_in_infix (sub s : pystr) :
  str_in sub s = true <-> exists a b, s = a ++ sub ++ b.
Proof.
  induction s as [| c s IH]; rewrite str_in_unfold.
  - rewrite orb_false_r, startswith_prefix. split.
    + intros [t Ht]. exists [], t. exact Ht.
    + intros [a [b Hab]]. destruct a; [exists b; exact Hab | discriminate].
  - rewrite orb_true_iff, IH, startswith_prefix. split.
    + intros [[t Ht] | [a [b Hab]]].
      * exists [], t. exact Ht.
      * exists (c :: a), b. simpl. rewrite Hab. reflexivity.
    + intros [a [b Hab]]. destruct a as [| x a].
      * left. exists b. exact Hab.
      * right. injection Hab as -> ->. eauto.
Qed.
End StringFacts.

(** ** Charset size and entropy *)

Section EstimatorFacts.
Variable U : UnicodeData.

Lemma charset_size_cases (password : pystr) :
  charset_size U password = 1 \/ 10 <= charset_size U password <= 95.
Proof.
  unfold charset_size.
  destruct (any (islower U) password), (any (isupper U) password),
    (any (isdigit U) password),
    (any (fun c => char_in c punctuation) password),
    (any (isspace U) password); vm_compute; intuition discriminate.
Qed.

(** The entropy estimate is never negative. *)
Lemma entropy_bits_nonneg (password : pystr) :
  (0 <= entropy_bits U password)%R.
Proof.
  unfold entropy_bits, log2.
  destruct (charset_size U password <=? 1) eqn:Hcs; [lra |].
  apply Z.leb_gt in Hcs.
  assert (Hlen : (0 <= IZR (len password))%R)
    by (apply IZR_le; unfold len; lia).
  assert (H2 : (0 < ln 2)%R) by (rewrite <- ln_1; apply ln_increasing; lra).
  assert (Hc : (0 < ln (IZR (charset_size U password)))%R).
  { rewrite <- ln_1. apply ln_increasing; [lra |]. apply IZR_lt. lia. }
  apply Rmult_le_pos; [exact Hlen |].
  apply Rlt_le, Rdiv_lt_0_compat; assumption.
Qed.
End EstimatorFacts.

(** C4: [charset_size] is the sum of the alphabet sizes of the classes that
    occur in the password (26 lowercase, 26 uppercase, 10 digits, 32
    punctuation, 1 for whitespace however many kinds occur); it is 1 when
    no class occurs; so it is at least 1 for every password, the empty one
    included. *)
Theorem charset_size_spec (U : UnicodeData) (password : pystr) :
  charset_size U password = spec_charset_size U password /\
  (List.filter fst (spec_classes U password) = [] ->
   charset_size U password = 1) /\
  1 <= charset_size U password /\
  charset_size U [] = 1.
Proof.
  unfold charset_size, spec_charset_size, spec_classes.
  repeat split; try reflexivity;
    destruct (any (islower U) password), (any (isupper U) password),
      (any (isdigit U) password),
      (any (fun c => char_in c punctuation) password),
      (any (isspace U) password);
    simpl; try reflexivity; try discriminate; try (vm_compute; discriminate).
Qed.

Lemma charset_size_spec_witness :
  charset_size ascii_only (py "Ab 1!") = 26 + 26 + 10 + 32 + 1 /\
  charset_size ascii_only [233%N] = 1.
Proof.
  split.
  - rewrite (proj1 (charset_size_spec ascii_only (py "Ab 1!"))). reflexivity.
  - apply (proj1 (proj2 (charset_size_spec ascii_only [233%N]))). reflexivity.
Defined.

(** C1: [entropy_bits] is 0 when the charset size is at most 1, and the
    length times the base-2 logarithm of the charset size otherwise; the
    empty password has entropy 0. *)
Theorem entropy_bits_spec (U : UnicodeData) (password : pystr) :
  (charset_size U password <= 1 -> entropy_bits U password = 0%R) /\
  (1 < charset_size U password ->
   entropy_bits U password =
   (IZR (len password) * log2 (IZR (charset_size U password)))%R) /\
  entropy_bits U [] = 0%R.
Proof.
  unfold entropy_bits. repeat split.
  - intros H. apply Z.leb_le in H. rewrite H. reflexivity.
  - intros H. apply Z.leb_gt in H. rewrite H. reflexivity.
Qed.

Lemma entropy_bits_spec_witness :
  entropy_bits ascii_only (py "   ") = 0%R /\
  entropy_bits ascii_only (py "ab") = (IZR 2 * log2 (IZR 26))%R.
Proof.
  split.
  - apply (proj1 (entropy_bits_spec ascii_only (py "   "))).
    vm_compute. discriminate.
  - apply (proj1 (proj2 (entropy_bits_spec ascii_only (py "ab")))).
    reflexivity.
Defined.

(** ** Crack time *)

Lemma avg_crack_time_value (bits rate : R) :
  (bits < 1024)%R -> rate <> 0%R ->
  avg_crack_time_seconds_from_bits bits rate =
  inr (Rpower 2 (bits - 1) / rate)%R.
Proof.
  intros Hbits Hrate. unfold avg_crack_time_seconds_from_bits.
  destruct (Rle_dec 1024 bits) as [Hover | _]; [exfalso; lra |].
  destruct (Req_dec_T rate 0) as [H0 | _]; [contradiction |].
  f_equal. unfold Rminus. rewrite Rpower_plus, Rpower_Ropp, Rpower_1 by lra.
  reflexivity.
Qed.

Lemma avg_crack_time_overflow (bits rate : R) :
  (1024 <= bits)%R ->
  avg_crack_time_seconds_from_bits bits rate =
  inl (Exception "OverflowError").
Proof.
  intros Hbits. unfold avg_crack_time_seconds_from_bits.
  destruct (Rle_dec 1024 bits) as [_ | Hn]; [reflexivity | contradiction].
Qed.

(** C2, as the specification states it, fails: at 0 bits and 10 attempts
    per second the function returns a twentieth of a second, not 0. *)
Lemma avg_crack_time_zero_bits_counterexample :
  avg_crack_time_seconds_from_bits 0 10 = inr (1 / 20)%R /\
  avg_crack_time_seconds_from_bits 0 10 <> inr 0%R.
Proof.
  assert (H : avg_crack_time_seconds_from_bits 0 10 = inr (1 / 20)%R).
  { rewrite avg_crack_time_value by lra. f_equal.
    unfold Rminus. rewrite Rplus_0_l, Rpower_Ropp, Rpower_1 by lra. lra. }
  split; [exact H |]. rewrite H. intros Heq. injection Heq as Heq. lra.
Qed.

(** C2, amended: with 0 bits and a rate that is not zero the function
    returns [1 / (2 * rate)], half a keyspace of one, which is not 0. *)
Theorem avg_crack_time_zero_bits (rate : R) :
  rate <> 0%R ->
  avg_crack_time_seconds_from_bits 0 rate = inr (1 / (2 * rate))%R /\
  avg_crack_time_seconds_from_bits 0 rate <> inr 0%R.
Proof.
  intros Hrate.
  assert (H : avg_crack_time_seconds_from_bits 0 rate =
              inr (1 / (2 * rate))%R).
  { rewrite avg_crack_time_value by (lra || exact Hrate). f_equal.
    unfold Rminus. rewrite Rplus_0_l, Rpower_Ropp, Rpower_1 by lra.
    field. exact Hrate. }
  split; [exact H |]. rewrite H. intros Heq. injection Heq as Heq.
  assert (Hinv : (/ (2 * rate) <> 0)%R) by (apply Rinv_neq_0_compat; lra).
  apply Hinv. lra.
Qed.

Lemma avg_crack_time_zero_bits_witness :
  avg_crack_time_seconds_from_bits 0 100 = inr (1 / (2 * 100))%R /\
  avg_crack_time_seconds_from_bits 0 100 <> inr 0%R.
Proof. apply (avg_crack_time_zero_bits 100). lra. Defined.

(** C10, as stated, fails: at 1024 bits [2 ** bits] raises
    [OverflowError], so the function returns no value there. *)
Lemma avg_crack_time_formula_counterexample :
  avg_crack_time_seconds_from_bits 1024 1 = inl (Exception "OverflowError") /\
  avg_crack_time_seconds_from_bits 1024 1 <>
  inr (Rpower 2 (1024 - 1) / 1)%R.
Proof.
  assert (H : avg_crack_time_seconds_from_bits 1024 1 =
              inl (Exception "OverflowError"))
    by (apply avg_crack_time_overflow; lra).
  split; [exact H |]. rewrite H. discriminate.
Qed.

(** C10, amended: below 1024 bits and for a positive rate the crack time
    is [2^(bits-1) / rate]; it is positive for bits that are not negative,
    so also at 0 bits, and a higher rate never gives a longer time for the
    same bits; from 1024 bits on the call raises [OverflowError], for
    every rate. *)
Theorem avg_crack_time_formula (bits rate : R) :
  (bits < 1024)%R -> (0 < rate)%R ->
  avg_crack_time_seconds_from_bits bits rate =
    inr (Rpower 2 (bits - 1) / rate)%R /\
  ((0 <= bits)%R -> (0 < Rpower 2 (bits - 1) / rate)%R) /\
  (forall rate' : R, (rate <= rate')%R ->
     avg_crack_time_seconds_from_bits bits rate' =
       inr (Rpower 2 (bits - 1) / rate')%R /\
     (Rpower 2 (bits - 1) / rate' <= Rpower 2 (bits - 1) / rate)%R) /\
  (forall high rate0 : R, (1024 <= high)%R ->
     avg_crack_time_seconds_from_bits high rate0 =
     inl (Exception "OverflowError")).
Proof.
  intros Hbits Hrate.
  assert (Hpow : (0 < Rpower 2 (bits - 1))%R) by apply exp_pos.
  split; [apply avg_crack_time_value; lra |].
  split; [intros _; apply Rdiv_lt_0_compat; assumption |].
  split; [| intros high rate0; apply avg_crack_time_overflow].
  intros rate' Hle. split; [apply avg_crack_time_value; lra |].
  unfold Rdiv. apply Rmult_le_compat_l; [lra |].
  apply Rinv_le_contravar; assumption.
Qed.

Lemma avg_crack_time_formula_witness :
  avg_crack_time_seconds_from_bits 0 10 = inr (Rpower 2 (0 - 1) / 10)%R /\
  ((0 <= 0)%R -> (0 < Rpower 2 (0 - 1) / 10)%R) /\
  (forall rate' : R, (10 <= rate')%R ->
     avg_crack_time_seconds_from_bits 0 rate' =
       inr (Rpower 2 (0 - 1) / rate')%R /\
     (Rpower 2 (0 - 1) / rate' <= Rpower 2 (0 - 1) / 10)%R) /\
  (forall high rate0 : R, (1024 <= high)%R ->
     avg_crack_time_seconds_from_bits high rate0 =
     inl (Exception "OverflowError")).
Proof. apply (avg_crack_time_formula 0 10); lra. Defined.

(** ** Labels *)

Lemma strength_label_from_60 (bits : R) :
  (60 <= bits)%R -> strength_label bits = Very_strong.
Proof.
  intros H. unfold strength_label.
  repeat match goal with
         | |- context [Rlt_dec ?a ?b] => destruct (Rlt_dec a b)
         end; try reflexivity; exfalso; lra.
Qed.

(** C5: the label is Weak below 28 bits, Okay from 28 and below 36, Good
    from 36 and below 60, Very strong from 60; so 27.9 is Weak, 28 and
    35.9 are Okay, 36 and 59.9 are Good, 60 is Very strong. *)
Theorem strength_label_thresholds (bits : R) :
  ((bits < 28)%R -> strength_label bits = Weak) /\
  ((28 <= bits < 36)%R -> strength_label bits = Okay) /\
  ((36 <= bits < 60)%R -> strength_label bits = Good) /\
  ((60 <= bits)%R -> strength_label bits = Very_strong) /\
  strength_label 27.9 = Weak /\
  strength_label 28 = Okay /\
  strength_label 35.9 = Okay /\
  strength_label 36 = Good /\
  strength_label 59.9 = Good /\
  strength_label 60 = Very_strong.
Proof.
  unfold strength_label.
  repeat split; try intros H;
    repeat match goal with
           | |- context [Rlt_dec ?a ?b] => destruct (Rlt_dec a b)
           end;
    try reflexivity; exfalso; lra.
Qed.

Lemma strength_label_thresholds_witness :
  strength_label 12 = Weak /\ strength_label 30 = Okay /\
  strength_label 45.5 = Good /\ strength_label 128 = Very_strong.
Proof.
  split; [| split; [| split]].
  - apply (proj1 (strength_label_thresholds 12)). lra.
  - apply (proj1 (proj2 (strength_label_thresholds 30))). lra.
  - apply (proj1 (proj2 (proj2 (strength_label_thresholds 45.5)))). lra.
  - apply (proj1 (proj2 (proj2 (proj2 (strength_label_thresholds 128))))). lra.
Defined.

(** ** The loader *)

Section LoaderFacts.
Variable U : UnicodeData.

Lemma FALLBACK_COMMON_size : size FALLBACK_COMMON = 12%nat.
Proof. vm_compute. reflexivity. Qed.

Lemma FALLBACK_COMMON_nonempty : FALLBACK_COMMON <> ∅.
Proof.
  intros H. apply (f_equal size) in H.
  rewrite FALLBACK_COMMON_size, size_empty in H. discriminate.
Qed.

Lemma skipped_blank_or_comment (line : pystr) :
  skipped (strip U line) = blank_or_comment U line.
Proof.
  unfold skipped, blank_or_comment.
  destruct (strip U line) as [| c w]; [reflexivity |].
  change (py "#") with [35%N]. cbn [startswith orb].
  replace (startswith w []) with true by (destruct w; reflexivity).
  rewrite andb_true_r. apply N.eqb_sym.
Qed.

Lemma read_words_unreadable (f : file_lines) (words : gset pystr) :
  unreadable f = true -> read_words U f words = None.
Proof.
  revert words. induction f as [| | line rest IH]; intros words H; simpl in *.
  - discriminate.
  - reflexivity.
  - destruct (skipped (strip U line)); apply IH; exact H.
Qed.

(** A readable file gives the lower-cased, stripped lines that are
    neither blank nor comments, added to the words already there. *)
Lemma read_words_readable (f : file_lines) (words : gset pystr) :
  unreadable f = false ->
  read_words U f words =
  Some (list_to_set
          (map (fun line => lower U (strip U line))
               (List.filter (fun line => negb (blank_or_comment U line))
                            (lines_of f))) ∪ words).
Proof.
  revert words. induction f as [| | line rest IH]; intros words H; simpl in *.
  - f_equal. symmetry. apply (left_id_L ∅ (∪)).
  - discriminate.
  - rewrite skipped_blank_or_comment.
    destruct (blank_or_comment U line); simpl.
    + apply IH; exact H.
    + rewrite IH by exact H. f_equal.
      rewrite (assoc_L (∪)), (comm_L (∪) (list_to_set _) {[ _ ]}).
      reflexivity.
Qed.

Lemma read_words_only_comments (f : file_lines) :
  unreadable f = false ->
  forallb (blank_or_comment U) (lines_of f) = true ->
  read_words U f ∅ = Some ∅.
Proof.
  intros Hr Hall. rewrite read_words_readable by exact Hr. f_equal.
  replace (List.filter (fun line => negb (blank_or_comment U line))
                       (lines_of f)) with (@nil pystr);
    [apply (left_id_L ∅ (∪)) |].
  induction (lines_of f) as [| l ls IH]; [reflexivity |].
  simpl in *. apply andb_true_iff in Hall as [Hl Hls].
  rewrite Hl. simpl. apply IH, Hls.
Qed.

(** A readable file with a line that is neither blank nor a comment is
    used: the loader returns its words, not the fallback. *)
Lemma load_common_passwords_words (f : file_lines) :
  unreadable f = false ->
  forallb (blank_or_comment U) (lines_of f) = false ->
  load_common_passwords U (Opened f) =
  list_to_set
    (map (fun line => lower U (strip U line))
         (List.filter (fun line => negb (blank_or_comment U line))
                      (lines_of f))).
Proof.
  intros Hr Hsome. unfold load_common_passwords.
  rewrite read_words_readable by exact Hr.
  set (kept := List.filter _ _).
  assert (Hkept : kept <> []).
  { subst kept. induction (lines_of f) as [| l ls IH]; [discriminate |].
    simpl in *. destruct (blank_or_comment U l); simpl in *;
      [apply IH, Hsome | discriminate]. }
  destruct kept as [| k kept']; [contradiction |].
  rewrite (right_id_L ∅ (∪)).
  rewrite bool_decide_eq_false_2; [reflexivity |].
  intros Hempty.
  apply (not_elem_of_empty (C := gset pystr) (lower U (strip U k))).
  rewrite <- Hempty. simpl. apply elem_of_union_l, elem_of_singleton_2.
  reflexivity.
Qed.
End LoaderFacts.

(** C8: the loader returns the built-in fallback set, which has 12 entries,
    when the word list is missing, cannot be opened, fails while it is
    read, or holds only blank and comment lines; the set it returns is
    never empty. *)
Theorem load_common_passwords_fallback (U : UnicodeData) (p : resource) :
  (10 <= size FALLBACK_COMMON)%nat /\
  (p = Missing -> load_common_passwords U p = FALLBACK_COMMON) /\
  (p = OpenError -> load_common_passwords U p = FALLBACK_COMMON) /\
  (forall f, p = Opened f -> unreadable f = true ->
     load_common_passwords U p = FALLBACK_COMMON) /\
  (forall f, p = Opened f -> unreadable f = false ->
     forallb (blank_or_comment U) (lines_of f) = true ->
     load_common_passwords U p = FALLBACK_COMMON) /\
  load_common_passwords U p <> ∅.
Proof.
  split; [rewrite FALLBACK_COMMON_size; lia |].
  split; [intros ->; reflexivity |].
  split; [intros ->; reflexivity |].
  split.
  { intros f -> Hf. simpl. rewrite read_words_unreadable by exact Hf.
    reflexivity. }
  split.
  { intros f -> Hf Hall. simpl.
    rewrite (read_words_only_comments U f Hf Hall). reflexivity. }
  destruct p as [| | f]; simpl; try apply FALLBACK_COMMON_nonempty.
  destruct (read_words U f ∅) as [words |];
    [| apply FALLBACK_COMMON_nonempty].
  destruct (bool_decide (words = ∅)) eqn:Hw.
  - apply FALLBACK_COMMON_nonempty.
  - apply bool_decide_eq_false in Hw. exact Hw.
Qed.

Lemma load_common_passwords_fallback_witness :
  load_common_passwords ascii_only Missing = FALLBACK_COMMON /\
  load_common_passwords ascii_only OpenError = FALLBACK_COMMON /\
  load_common_passwords ascii_only
    (Opened (Line (py "letmein") ReadError)) = FALLBACK_COMMON /\
  load_common_passwords ascii_only
    (Opened (Line (py "  # weak passwords") (Line (py "   ") Eof))) =
    FALLBACK_COMMON.
Proof.
  split; [| split; [| split]].
  - apply (proj1 (proj2 (load_common_passwords_fallback ascii_only Missing))).
    reflexivity.
  - apply (proj1 (proj2 (proj2
             (load_common_passwords_fallback ascii_only OpenError)))).
    reflexivity.
  - apply (proj1 (proj2 (proj2 (proj2
             (load_common_passwords_fallback ascii_only
                (Opened (Line (py "letmein") ReadError)))))) _ eq_refl).
    reflexivity.
  - apply (proj1 (proj2 (proj2 (proj2 (proj2
             (load_common_passwords_fallback ascii_only
                (Opened (Line (py "  # weak passwords")
                              (Line (py "   ") Eof)))))))) _ eq_refl).
    + reflexivity.
    + vm_compute. reflexivity.
Defined.

(** ** Bounds on base-2 logarithms, by integer arithmetic *)

Lemma ln_2_pos : (0 < ln 2)%R.
Proof. rewrite <- ln_1. apply ln_increasing; lra. Qed.

Lemma ln_Zpow (a q : Z) :
  0 < a -> 0 <= q -> ln (IZR (a ^ q)) = (IZR q * ln (IZR a))%R.
Proof.
  intros Ha Hq. rewrite <- (Z2Nat.id q) at 1 by exact Hq.
  rewrite <- pow_IZR, ln_pow by (apply IZR_lt; exact Ha).
  rewrite INR_IZR_INZ, Z2Nat.id by exact Hq. reflexivity.
Qed.

(** [p / q <= log2 a] follows from [2^p <= a^q]. *)
Lemma log2_lower_bound (a p q : Z) :
  0 < a -> 0 <= p -> 0 < q -> 2 ^ p <= a ^ q ->
  (IZR p / IZR q <= log2 (IZR a))%R.
Proof.
  intros Ha Hp Hq Hle. unfold log2.
  assert (H2 := ln_2_pos).
  assert (Hq' : (0 < IZR q)%R) by (apply IZR_lt; exact Hq).
  assert (Hln : (IZR p * ln 2 <= IZR q * ln (IZR a))%R).
  { rewrite <- (ln_Zpow 2 p), <- (ln_Zpow a q) by lia.
    apply Z.le_lteq in Hle as [Hlt | Heq].
    - apply Rlt_le, ln_increasing; apply IZR_lt; [lia | exact Hlt].
    - rewrite Heq. apply Rle_refl. }
  apply (Rmult_le_reg_r (IZR q * ln 2)); [apply Rmult_lt_0_compat; lra |].
  replace (IZR p / IZR q * (IZR q * ln 2))%R with (IZR p * ln 2)%R
    by (field; lra).
  replace (ln (IZR a) / ln 2 * (IZR q * ln 2))%R with (IZR q * ln (IZR a))%R
    by (field; lra).
  exact Hln.
Qed.

(** [log2 a < p / q] follows from [a^q < 2^p]. *)
Lemma log2_upper_bound (a p q : Z) :
  0 < a -> 0 <= p -> 0 < q -> a ^ q < 2 ^ p ->
  (log2 (IZR a) < IZR p / IZR q)%R.
Proof.
  intros Ha Hp Hq Hlt. unfold log2.
  assert (H2 := ln_2_pos).
  assert (Hq' : (0 < IZR q)%R) by (apply IZR_lt; exact Hq).
  assert (Hln : (IZR q * ln (IZR a) < IZR p * ln 2)%R).
  { rewrite <- (ln_Zpow 2 p), <- (ln_Zpow a q) by lia.
    apply ln_increasing; [apply IZR_lt; lia | apply IZR_lt; exact Hlt]. }
  apply (Rmult_lt_reg_r (IZR q * ln 2)); [apply Rmult_lt_0_compat; lra |].
  replace (IZR p / IZR q * (IZR q * ln 2))%R with (IZR p * ln 2)%R
    by (field; lra).
  replace (ln (IZR a) / ln 2 * (IZR q * ln 2))%R with (IZR q * ln (IZR a))%R
    by (field; lra).
  exact Hln.
Qed.

(** ** The demonstration password *)

(** C9: for the password "Password1!" the charset size is 26+26+10+32 = 94,
    the length is 10, the entropy is 10 * log2 94, which rounds to 65.5 at
    one decimal, and the label is Very strong; with the built-in set, the
    lower-cased password is not a common password, but it contains one
    ("password"). *)
Theorem password1_example (U : UnicodeData) :
  charset_size U (py "Password1!") = 26 + 26 + 10 + 32 /\
  charset_size U (py "Password1!") = 94 /\
  len (py "Password1!") = 10 /\
  entropy_bits U (py "Password1!") = (10 * log2 94)%R /\
  (65.45 <= entropy_bits U (py "Password1!") < 65.55)%R /\
  strength_label (entropy_bits U (py "Password1!")) = Very_strong /\
  lower U (py "Password1!") = py "password1!" /\
  is_common FALLBACK_COMMON U (py "password1!") = false /\
  is_common FALLBACK_COMMON U (py "Password1!") = false /\
  str_in (py "password") (lower U (py "Password1!")) = true /\
  contains_common_part FALLBACK_COMMON U (py "Password1!") = true.
Proof.
  assert (Hcs : charset_size U (py "Password1!") = 94) by reflexivity.
  assert (Hent : entropy_bits U (py "Password1!") = (10 * log2 94)%R).
  { unfold entropy_bits. rewrite Hcs. reflexivity. }
  assert (Hlo : (6545 / 1000 <= log2 94)%R).
  { apply (log2_lower_bound 94 6545 1000);
      [lia | lia | lia | apply Z.leb_le; vm_compute; reflexivity]. }
  assert (Hhi : (log2 94 < 6555 / 1000)%R).
  { apply (log2_upper_bound 94 6555 1000);
      [lia | lia | lia | apply Z.ltb_lt; vm_compute; reflexivity]. }
  split; [reflexivity |]. split; [exact Hcs |]. split; [reflexivity |].
  split; [exact Hent |]. split; [rewrite Hent; lra |].
  split.
  { apply strength_label_from_60. rewrite Hent. lra. }
  split; [reflexivity |].
  split; [vm_compute; reflexivity |].
  split; [vm_compute; reflexivity |].
  split; [reflexivity |].
  vm_compute. reflexivity.
Qed.

(** ** Advice *)

Section AdvisorFacts.
Variable COMMON_PASSWORDS : gset pystr.
Variable U : UnicodeData.

Lemma suggest_improvements_refines (password : pystr) :
  suggest_improvements COMMON_PASSWORDS U password =
  spec_suggestions COMMON_PASSWORDS U password.
Proof.
  unfold suggest_improvements, spec_suggestions, spec_rules, append_if.
  destruct (len password <? 12), (any (islower U) password),
    (any (isupper U) password), (any (isdigit U) password),
    (any (fun c => char_in c punctuation) password),
    (is_common COMMON_PASSWORDS U password || (len password <=? 4));
    reflexivity.
Qed.

Lemma spec_suggestions_nonempty (password : pystr) :
  spec_suggestions COMMON_PASSWORDS U password <> [].
Proof.
  unfold spec_suggestions.
  destruct (map snd _); discriminate.
Qed.

(** The entry about common or short passwords is there exactly when the
    lower-cased password is in the set or the password has at most 4
    characters. *)
Lemma spec_suggestions_common (password : pystr) :
  In MSG_COMMON (spec_suggestions COMMON_PASSWORDS U password) <->
  is_common COMMON_PASSWORDS U password || (len password <=? 4) = true.
Proof.
  unfold spec_suggestions, spec_rules.
  destruct (len password <? 12), (any (islower U) password),
    (any (isupper U) password), (any (isdigit U) password),
    (any (fun c => char_in c punctuation) password),
    (is_common COMMON_PASSWORDS U password || (len password <=? 4));
    simpl; split; intros H; try reflexivity; try discriminate H;
    try (repeat (first [left; reflexivity | right]); fail);
    repeat (destruct H as [H | H]; [vm_compute in H; discriminate H |]);
    destruct H.
Qed.
End AdvisorFacts.

(** C7: [suggest_improvements] goes through six conditions in this order:
    fewer than 12 characters, no lowercase letter, no uppercase letter, no
    digit, no punctuation, and (lower-cased password in the common set, or
    at most 4 characters); each condition that holds adds its message; when
    none holds the result is the single affirmation, so the result is never
    empty; the entry about common passwords depends on the exact match and
    the length only, so a common part inside the password adds nothing. *)
Theorem suggest_improvements_spec
    (COMMON_PASSWORDS : gset pystr) (U : UnicodeData) (password : pystr) :
  suggest_improvements COMMON_PASSWORDS U password =
    spec_suggestions COMMON_PASSWORDS U password /\
  (exists first rest,
     suggest_improvements COMMON_PASSWORDS U password = first :: rest) /\
  (List.filter fst (spec_rules COMMON_PASSWORDS U password) = [] ->
   suggest_improvements COMMON_PASSWORDS U password = [MSG_NICE]) /\
  (In MSG_COMMON (suggest_improvements COMMON_PASSWORDS U password) <->
   is_common COMMON_PASSWORDS U password || (len password <=? 4) = true) /\
  contains_common_part FALLBACK_COMMON U (py "MyPassword1!x") = true /\
  suggest_improvements FALLBACK_COMMON U (py "MyPassword1!x") = [MSG_NICE].
Proof.
  split; [apply suggest_improvements_refines |].
  split.
  { rewrite suggest_improvements_refines.
    pose proof (spec_suggestions_nonempty COMMON_PASSWORDS U password) as Hne.
    destruct (spec_suggestions COMMON_PASSWORDS U password) as [| a l];
      [contradiction | eauto]. }
  split.
  { intros Hnone. rewrite suggest_improvements_refines.
    unfold spec_suggestions. rewrite Hnone. reflexivity. }
  split.
  { rewrite suggest_improvements_refines. apply spec_suggestions_common. }
  split; vm_compute; reflexivity.
Qed.

Lemma suggest_improvements_spec_witness :
  suggest_improvements FALLBACK_COMMON ascii_only (py "Tr0ub4dor&3-horse")
  = [MSG_NICE].
Proof.
  apply (proj1 (proj2 (proj2
           (suggest_improvements_spec FALLBACK_COMMON ascii_only
              (py "Tr0ub4dor&3-horse"))))).
  vm_compute. reflexivity.
Defined.

(** ** Durations in words *)

Lemma human_readable_refines (seconds : float) :
  human_readable seconds = spec_human_readable seconds.
Proof.
  unfold human_readable, spec_human_readable, spec_unit, spec_units, flt_int.
  cbn [find spec_limit].
  change (24 * 60 * 60) with 86400. change (60 * 60) with 3600.
  change (365 * 86400) with 31536000. change (100 * 31536000) with 3153600000.
  cbv zeta.
  change (365 * 86400) with 31536000. change (100 * 31536000) with 3153600000.
  destruct (exact_lt (exact_of seconds) (exact_int 1)); [reflexivity |].
  destruct (exact_lt (exact_of seconds) (exact_int 60)); [reflexivity |].
  destruct (exact_lt (exact_of seconds) (exact_int 3600)); [reflexivity |].
  destruct (exact_lt (exact_of seconds) (exact_int 86400)); [reflexivity |].
  destruct (exact_lt (exact_of seconds) (exact_int 31536000)); [reflexivity |].
  destruct (exact_lt (exact_of seconds) (exact_int 3153600000)); reflexivity.
Qed.

Lemma exact_lt_Fin (p q : Q) : exact_lt (Fin p) (Fin q) = true <-> (p < q)%Q.
Proof.
  unfold exact_lt. rewrite Qlt_alt. destruct (p ?= q)%Q; split; congruence.
Qed.

Lemma exact_lt_Fin_false (p q : Q) :
  exact_lt (Fin p) (Fin q) = false <-> (q <= p)%Q.
Proof.
  pose proof (exact_lt_Fin p q) as H.
  destruct (exact_lt (Fin p) (Fin q)); split; intros H1; try congruence.
  - exfalso. apply (Qle_not_lt _ _ H1). apply H. reflexivity.
  - apply Qnot_lt_le. intros Hlt. apply H in Hlt. discriminate.
Qed.

Lemma spec_unit_thresholds (q : Q) :
  ((q < 1)%Q -> spec_unit (Fin q) = Milliseconds) /\
  ((1 <= q < 60)%Q -> spec_unit (Fin q) = Seconds) /\
  ((60 <= q < 3600)%Q -> spec_unit (Fin q) = Minutes) /\
  ((3600 <= q < 86400)%Q -> spec_unit (Fin q) = Hours) /\
  ((86400 <= q < 365 * 86400)%Q -> spec_unit (Fin q) = Days) /\
  ((365 * 86400 <= q < 100 * (365 * 86400))%Q -> spec_unit (Fin q) = Years) /\
  ((100 * (365 * 86400) <= q)%Q -> spec_unit (Fin q) = Centuries).
Proof.
  unfold spec_unit, spec_units, exact_int. cbn [find spec_limit].
  change (24 * 60 * 60) with 86400. change (60 * 60) with 3600.
  change (365 * 86400) with 31536000. change (100 * 31536000) with 3153600000.
  repeat split; intros H;
  repeat match goal with
  | |- context [exact_lt (Fin ?a) (Fin ?b)] =>
      let E := fresh "E" in
      destruct (exact_lt (Fin a) (Fin b)) eqn:E;
      [apply exact_lt_Fin in E | apply exact_lt_Fin_false in E];
      unfold inject_Z in E
  end; try reflexivity; exfalso; lra.
Qed.

Lemma list_ascii_app (a b : string) :
  list_ascii_of_string (a ++ b) =
  (list_ascii_of_string a ++ list_ascii_of_string b)%list.
Proof. induction a as [| c a IH]; simpl; [| rewrite IH]; reflexivity. Qed.

Lemma uint_digits (u : Decimal.uint) :
  forallb is_digit (list_ascii_of_string (NilEmpty.string_of_uint u)) = true.
Proof. induction u; simpl; try assumption; reflexivity. Qed.

Lemma decimal_digits (n : Z) :
  forallb is_digit (list_ascii_of_string (decimal n)) = true /\
  list_ascii_of_string (decimal n) <> [].
Proof.
  unfold decimal, NilZero.string_of_uint.
  destruct (N.to_uint (Z.to_N n)) as [| u | u | u | u | u | u | u | u | u | u];
    (split; [try reflexivity; apply (uint_digits (_ u)) | discriminate]).
Qed.

Lemma decimal_one_digit (r : Z) :
  0 <= r < 10 ->
  exists a, list_ascii_of_string (decimal r) = [a] /\ is_digit a = true.
Proof.
  intros H.
  assert (Hr : r = 0 \/ r = 1 \/ r = 2 \/ r = 3 \/ r = 4 \/ r = 5 \/ r = 6 \/
               r = 7 \/ r = 8 \/ r = 9) by lia.
  repeat (destruct Hr as [-> | Hr]; [eexists; split; reflexivity |]).
  subst r. eexists; split; reflexivity.
Qed.

Lemma unsigned_shape_integer (n : Z) :
  unsigned_shape 0 (list_ascii_of_string (decimal n)) = true.
Proof.
  destruct (decimal_digits n) as [Hd Hne]. unfold unsigned_shape.
  rewrite Hd, andb_true_r.
  destruct (list_ascii_of_string (decimal n)); [contradiction | reflexivity].
Qed.

Lemma unsigned_shape_one (whole : list ascii) (a : ascii) :
  forallb is_digit whole = true -> whole <> [] -> is_digit a = true ->
  unsigned_shape 1 (whole ++ "."%char :: [a]) = true.
Proof.
  intros Hd Hne Ha. unfold unsigned_shape.
  rewrite length_app. simpl length.
  replace (length whole + 2 - 1 - 1)%nat with (length whole) by lia.
  replace (length whole + 2 - 1)%nat with (length whole + 1)%nat by lia.
  assert (Hlen : (1 <= length whole)%nat).
  { destruct whole; [contradiction | simpl; lia]. }
  rewrite firstn_app, firstn_all, Nat.sub_diag, firstn_0, app_nil_r, Hd.
  rewrite nth_error_app2, Nat.sub_diag by lia. simpl nth_error.
  rewrite skipn_app, skipn_all2 by lia.
  replace (length whole + 1 - length whole)%nat with 1%nat by lia.
  simpl. rewrite Ha.
  destruct (length whole + 2)%nat as [| [| [| k]]] eqn:E;
    first [lia | reflexivity].
Qed.

Lemma fixed_one (n : Z) :
  exists whole a,
    list_ascii_of_string (fixed 1 n) = (whole ++ "."%char :: [a])%list /\
    forallb is_digit whole = true /\ whole <> [] /\ is_digit a = true.
Proof.
  unfold fixed. change (10 ^ Z.of_nat 1) with 10.
  destruct (decimal_one_digit (n mod 10)) as [a [Ha Hda]];
    [apply Z.mod_pos_bound; lia |].
  destruct (decimal_digits (n / 10)) as [Hd Hne].
  exists (list_ascii_of_string (decimal (n / 10))), a.
  split; [| auto].
  rewrite !list_ascii_app.
  assert (Hlen : String.length (decimal (n mod 10)) = 1%nat).
  { rewrite <- (string_of_list_ascii_of_string (decimal (n mod 10))), Ha.
    reflexivity. }
  rewrite Hlen, Ha. reflexivity.
Qed.

Lemma digit_not_minus (a : ascii) :
  is_digit a = true -> Ascii.eqb a "-" = false.
Proof.
  intros H. destruct (Ascii.eqb_spec a "-"%char) as [-> | _];
    [discriminate H | reflexivity].
Qed.

Lemma fixed_shape_signed (d : nat) (s : bool) (body : string) :
  unsigned_shape d (list_ascii_of_string body) = true ->
  (exists a t, list_ascii_of_string body = a :: t /\ is_digit a = true) ->
  fixed_shape d (sign_text s ++ body) = true.
Proof.
  intros Hshape [a [t [Hbody Ha]]]. unfold fixed_shape.
  rewrite list_ascii_app.
  destruct s; simpl.
  - exact Hshape.
  - rewrite Hbody in *. rewrite (digit_not_minus a Ha). exact Hshape.
Qed.

Lemma fixed_shape_fixed (d : nat) (s : bool) (n : Z) :
  (d <= 1)%nat -> fixed_shape d (sign_text s ++ fixed d n) = true.
Proof.
  intros Hd. destruct d as [| [| d]]; [| | lia].
  - apply fixed_shape_signed; [apply unsigned_shape_integer |].
    destruct (decimal_digits n) as [Hdig Hne]. simpl fixed.
    destruct (list_ascii_of_string (decimal n)) as [| a t];
      [contradiction |].
    exists a, t. split; [reflexivity |].
    simpl in Hdig. apply andb_true_iff in Hdig. tauto.
  - destruct (fixed_one n) as [whole [a [Heq [Hdig [Hne Ha]]]]].
    apply fixed_shape_signed.
    + rewrite Heq. apply unsigned_shape_one; assumption.
    + rewrite Heq. destruct whole as [| w ws]; [contradiction |].
      exists w, (ws ++ ["."%char; a])%list. split; [reflexivity |].
      simpl in Hdig. apply andb_true_iff in Hdig. tauto.
Qed.

(** A zero or finite float printed with no or one decimal has the shape
    of a fixed-point number with that many decimals. *)
Lemma format_f_shape (d : nat) (x : float) :
  (d <= 1)%nat ->
  (exists q, exact_of x = Fin q) ->
  fixed_shape d (format_f d x) = true.
Proof.
  intros Hd [q Hq].
  destruct x as [s | s | | s m e]; try discriminate Hq;
    unfold format_f; apply fixed_shape_fixed; exact Hd.
Qed.

(** C6: [human_readable] picks the unit by the thresholds: milliseconds
    below 1 s, seconds below 60 s, minutes below 1 h, hours below 1 d, days
    below 1 y (365 days), years below 100 y, centuries from 100 y on; the
    number is printed with one decimal, and as an integer for milliseconds;
    so 0.5 gives "500 ms", 45 gives "45.0 s" and 3661 gives "1.0 h". *)
Theorem human_readable_spec (seconds : float) :
  human_readable seconds = spec_human_readable seconds /\
  (forall q : Q, exact_of seconds = Fin q ->
     ((q < 1)%Q ->
      human_readable seconds =
      (format_f 0 (fmul seconds (of_int 1000)) ++ " ms")%string) /\
     ((1 <= q < 60)%Q ->
      human_readable seconds = (format_f 1 seconds ++ " s")%string) /\
     ((60 <= q < 3600)%Q ->
      human_readable seconds =
      (format_f 1 (fdiv seconds (of_int 60)) ++ " min")%string) /\
     ((3600 <= q < 86400)%Q ->
      human_readable seconds =
      (format_f 1 (fdiv seconds (of_int 3600)) ++ " h")%string) /\
     ((86400 <= q < 365 * 86400)%Q ->
      human_readable seconds =
      (format_f 1 (fdiv seconds (of_int 86400)) ++ " days")%string) /\
     ((365 * 86400 <= q < 100 * (365 * 86400))%Q ->
      human_readable seconds =
      (format_f 1 (fdiv seconds (of_int (365 * 86400))) ++ " years")%string) /\
     ((100 * (365 * 86400) <= q)%Q ->
      human_readable seconds =
      (format_f 1 (fdiv seconds (of_int (100 * (365 * 86400)))) ++
       " centuries")%string)) /\
  (forall (d : nat) (x : float),
     (d <= 1)%nat -> (exists q, exact_of x = Fin q) ->
     fixed_shape d (format_f d x) = true) /\
  human_readable (fdiv (of_int 1) (of_int 2)) = "500 ms"%string /\
  human_readable (of_int 45) = "45.0 s"%string /\
  human_readable (of_int 3661) = "1.0 h"%string.
Proof.
  split; [apply human_readable_refines |].
  split.
  { intros q Hq.
    destruct (spec_unit_thresholds q) as [H1 [H2 [H3 [H4 [H5 [H6 H7]]]]]].
    repeat split; intros H; rewrite human_readable_refines;
      unfold spec_human_readable; rewrite Hq;
      [rewrite (H1 H) | rewrite (H2 H) | rewrite (H3 H) | rewrite (H4 H)
      | rewrite (H5 H) | rewrite (H6 H) | rewrite (H7 H)]; reflexivity. }
  split; [exact format_f_shape |].
  split; [vm_compute; reflexivity |].
  split; vm_compute; reflexivity.
Qed.

Lemma human_readable_spec_witness :
  human_readable (of_int 63) =
  (format_f 1 (fdiv (of_int 63) (of_int 60)) ++ " min")%string /\
  fixed_shape 1 (format_f 1 (fdiv (of_int 63) (of_int 60))) = true.
Proof.
  split.
  - apply (proj1 (proj2 (proj2 (proj1 (proj2 (human_readable_spec (of_int 63)))
             _ eq_refl)))).
    split; vm_compute; [discriminate | reflexivity].
  - apply (proj1 (proj2 (proj2 (human_readable_spec (of_int 63))))).
    + apply Nat.le_refl.
    + eexists. vm_compute. reflexivity.
Defined.

(** ** The visual bar *)

Lemma shr_1_nonneg (mrs : shr_record) :
  0 <= shr_m mrs -> 0 <= shr_m (shr_1 mrs).
Proof.
  destruct mrs as [m r s]. simpl.
  destruct m as [| [p | p |] | [p | p |]]; simpl; lia.
Qed.

Lemma iter_shr_1_nonneg (p : positive) (mrs : shr_record) :
  0 <= shr_m mrs -> 0 <= shr_m (SpecFloat.iter_pos shr_1 p mrs).
Proof.
  revert mrs. induction p as [p IH | p IH |]; intros mrs H; simpl.
  - apply IH, IH, shr_1_nonneg, H.
  - apply IH, IH, H.
  - apply shr_1_nonneg, H.
Qed.

Lemma shr_fexp_nonneg (m e : Z) (l : location) :
  0 <= m -> 0 <= shr_m (fst (shr_fexp prec emax m e l)).
Proof.
  intros H. unfold shr_fexp, shr.
  assert (H0 : 0 <= shr_m (shr_record_of_loc m l)).
  { destruct l as [| []]; exact H. }
  destruct (fexp prec emax (Zdigits2 m + e) - e); simpl;
    [exact H0 | apply iter_shr_1_nonneg, H0 | exact H0].
Qed.

Lemma round_nearest_even_nonneg (m : Z) (l : location) :
  0 <= m -> 0 <= round_nearest_even m l.
Proof.
  intros H. unfold round_nearest_even.
  destruct l as [| []]; try destruct (Z.even m); lia.
Qed.

Lemma binary_round_aux_not_nan (sx : bool) (mx ex : Z) (lx : location) :
  0 <= mx -> binary_round_aux prec emax sx mx ex lx <> S754_nan.
Proof.
  intros H. unfold binary_round_aux.
  pose proof (shr_fexp_nonneg mx ex lx H) as H1.
  destruct (shr_fexp prec emax mx ex lx) as [mrs' e']. simpl in H1.
  pose proof (shr_fexp_nonneg _ e' loc_Exact
                (round_nearest_even_nonneg _ (loc_of_shr_record mrs') H1)) as H2.
  destruct (shr_fexp prec emax _ e' loc_Exact) as [mrs'' e'']. simpl in H2.
  destruct (shr_m mrs'') as [| m | m]; [discriminate | | lia].
  destruct (e'' <=? emax - prec); discriminate.
Qed.

Lemma fmul_not_nan (x : float) (s : bool) (m : positive) (e : Z) :
  x <> S754_nan -> fmul x (S754_finite s m e) <> S754_nan.
Proof.
  intros Hx. destruct x as [sx | sx | | sx mx ex]; try discriminate;
    [contradiction |].
  apply binary_round_aux_not_nan. lia.
Qed.

Lemma fdiv_not_nan (x : float) (s : bool) (m : positive) (e : Z) :
  x <> S754_nan -> fdiv x (S754_finite s m e) <> S754_nan.
Proof.
  intros Hx. destruct x as [sx | sx | | sx mx ex]; try discriminate;
    [contradiction |].
  unfold fdiv, SFdiv, SFdiv_core_binary.
  set (m' := match _ with Z0 => _ | Zpos _ => _ | Zneg _ => _ end).
  assert (Hm' : 0 <= m').
  { subst m'. destruct (ex - e - _); [lia | apply Z.shiftl_nonneg; lia | lia]. }
  pose proof (Z_div_mod m' (Zpos m) eq_refl) as Hdiv.
  destruct (Z.div_eucl m' (Z.pos m)) as [q r].
  apply binary_round_aux_not_nan. nia.
Qed.

Lemma exact_of_nan (x : float) : exact_of x = Nan <-> x = S754_nan.
Proof. destruct x; simpl; split; intros H; congruence. Qed.

Lemma percentage_range (bits : float) :
  bits <> S754_nan ->
  exists q, exact_of (percentage bits) = Fin q /\ (0 <= q <= 100)%Q.
Proof.
  intros Hbits. unfold percentage.
  set (x := fmul (fdiv bits (of_int 80)) (of_int 100)).
  assert (Hx : exact_of x <> Nan).
  { rewrite exact_of_nan. subst x. apply fmul_not_nan, fdiv_not_nan, Hbits. }
  assert (H0 : exact_of (of_int 0) = Fin 0) by reflexivity.
  assert (H100 : exists h, exact_of (of_int 100) = Fin h /\ (h == 100)%Q).
  { eexists. split; reflexivity. }
  destruct H100 as [h [H100 Hh]].
  unfold py_max, py_min, flt. rewrite H0.
  destruct (exact_lt (exact_of x) (Fin 0)) eqn:E1.
  - rewrite H100, H0.
    destruct (exact_lt (Fin h) (Fin 0)) eqn:E2.
    + apply exact_lt_Fin in E2. rewrite Hh in E2. discriminate E2.
    + exists 0%Q. rewrite H0. split; [reflexivity | split; discriminate].
  - rewrite H100.
    destruct (exact_lt (Fin h) (exact_of x)) eqn:E2.
    + exists h. rewrite H100. split; [reflexivity |].
      rewrite Hh. split; discriminate.
    + destruct (exact_of x) as [| [|] | q] eqn:Ex;
        [contradiction | discriminate E1 | discriminate E2 |].
      exists q. split; [reflexivity |].
      apply exact_lt_Fin_false in E1, E2. rewrite Hh in E2. tauto.
Qed.

Lemma int_floordiv2_range (x : float) (q : Q) :
  exact_of x = Fin q -> (0 <= q <= 100)%Q ->
  exists blocks, int_floordiv2 x = Some blocks /\ 0 <= blocks <= 50.
Proof.
  intros Hx [Hlo Hhi]. unfold int_floordiv2. rewrite Hx.
  exists (Qfloor (q / 2)). split; [reflexivity |].
  split.
  - change 0 with (Qfloor 0). apply Qfloor_resp_le.
    apply Qle_shift_div_l; [reflexivity | rewrite Qmult_0_l; exact Hlo].
  - change 50 with (Qfloor 50). apply Qfloor_resp_le.
    apply Qle_shift_div_r; [reflexivity | exact Hhi].
Qed.

Lemma times_length (c : ascii) (n : Z) :
  String.length (times c n) = Z.to_nat n.
Proof.
  unfold times. induction (Z.to_nat n) as [| k IH]; simpl; [| rewrite IH];
    reflexivity.
Qed.

Lemma string_length_app (a b : string) :
  String.length (a ++ b) = (String.length a + String.length b)%nat.
Proof. induction a as [| c a IH]; simpl; [| rewrite IH]; reflexivity. Qed.

(** The bar between the brackets is 50 characters wide. *)
Lemma bar_width (blocks : Z) :
  0 <= blocks <= 50 ->
  String.length (times "#" blocks ++ times "-" (50 - blocks)) = 50%nat.
Proof. intros H. rewrite string_length_app, !times_length. lia. Qed.

Lemma print_all_stdout (report : list string) (w : world) :
  fold_left (fun w line => print line w) report w =
  {| stdout := stdout w ++ report; attempts := attempts w |}.
Proof.
  revert w. induction report as [| line report IH]; intros w; simpl.
  - rewrite app_nil_r. destruct w; reflexivity.
  - rewrite IH. simpl. rewrite <- app_assoc. reflexivity.
Qed.

Section RendererFacts.
Variable plt : matplotlib.

(** Without the plotting library the text bar is printed, for every bits
    value that is a number. *)
Lemma show_strength_visual_text (bits : float) (label : string) (w : world) :
  MATPLOTLIB_AVAILABLE plt = false -> bits <> S754_nan ->
  exists blocks,
    0 <= blocks <= 50 /\
    show_strength_visual plt bits label w =
    Returned (print (ascii_bar blocks (percentage bits)) w).
Proof.
  intros Hplt Hbits. unfold show_strength_visual. rewrite Hplt.
  destruct (percentage_range bits Hbits) as [q [Hq Hrange]].
  destruct (int_floordiv2_range _ q Hq Hrange) as [blocks [Hb Hbr]].
  exists blocks. rewrite Hb. split; [exact Hbr | reflexivity].
Qed.

Lemma check_password_and_show_text
    (report : list string) (bits : float) (label : string) (w : world) :
  MATPLOTLIB_AVAILABLE plt = false -> bits <> S754_nan ->
  exists blocks,
    0 <= blocks <= 50 /\
    check_password_and_show plt report bits label true w =
    Returned {| stdout := stdout w ++ report ++
                          [ascii_bar blocks (percentage bits)];
                attempts := attempts w |}.
Proof.
  intros Hplt Hbits. unfold check_password_and_show.
  rewrite print_all_stdout.
  destruct (show_strength_visual_text bits label
              {| stdout := stdout w ++ report; attempts := attempts w |}
              Hplt Hbits) as [blocks [Hbr Hshow]].
  exists blocks. split; [exact Hbr |]. rewrite Hshow.
  unfold print. simpl. rewrite <- app_assoc. reflexivity.
Qed.

Lemma show_strength_visual_draw_raises
    (bits : float) (label : string) (w : world) (e : exn) :
  MATPLOTLIB_AVAILABLE plt = true ->
  draw plt (attempts w) = Some e ->
  show_strength_visual plt bits label w =
  Raised e {| stdout := stdout w; attempts := S (attempts w) |}.
Proof.
  intros Hplt He. unfold show_strength_visual. rewrite Hplt, He. reflexivity.
Qed.

(** With the plotting library present, a drawing that raises an exception
    of a subclass of [Exception] is tried a second time; when that raises
    too, the exception leaves [check_password_and_show] and nothing more
    is printed. *)
Lemma check_password_and_show_draw_raises
    (report : list string) (bits : float) (label : string) (w : world)
    (c1 : string) (e2 : exn) :
  MATPLOTLIB_AVAILABLE plt = true ->
  draw plt (attempts w) = Some (Exception c1) ->
  draw plt (S (attempts w)) = Some e2 ->
  check_password_and_show plt report bits label true w =
  Raised e2 {| stdout := stdout w ++ report; attempts := S (S (attempts w)) |}.
Proof.
  intros Hplt H1 H2. unfold check_password_and_show.
  rewrite print_all_stdout.
  rewrite (show_strength_visual_draw_raises bits label
             {| stdout := stdout w ++ report; attempts := attempts w |}
             (Exception c1) Hplt H1).
  apply (show_strength_visual_draw_raises bits label
           {| stdout := stdout w ++ report; attempts := S (attempts w) |}
           e2 Hplt H2).
Qed.
End RendererFacts.

(** C3, at an input where it fails: the plotting library is installed and
    drawing raises each time it is tried.  The handler of
    [check_password_and_show] calls [show_strength_visual] again, which
    draws again; the second exception leaves the function: the run stops
    with the report printed and no text bar. *)
Theorem check_password_and_show_broken_display
    (report : list string) (bits : float) (label : string) :
  check_password_and_show broken_display report bits label true start =
  Raised (Exception "RuntimeError") {| stdout := report; attempts := 2 |}.
Proof.
  apply (check_password_and_show_draw_raises broken_display report bits
           label start "RuntimeError" (Exception "RuntimeError"));
    reflexivity.
Qed.

(** * Further properties *)

(** ** More on the charset size and the entropy *)

Lemma any_same_chars (f : N -> bool) (p q : pystr) :
  (forall c, In c p <-> In c q) -> any f p = any f q.
Proof.
  intros H. unfold any. apply eq_true_iff_eq.
  rewrite !existsb_exists. split; intros [c [Hin Hf]]; exists c;
    (split; [apply H; exact Hin | exact Hf]).
Qed.

(** X1: the charset size depends only on which characters occur in the
    password: two passwords with the same characters, in any order and any
    number of times, have the same charset size. *)
Theorem charset_size_same_chars (U : UnicodeData) (p q : pystr) :
  (forall c, In c p <-> In c q) -> charset_size U p = charset_size U q.
Proof.
  intros H. unfold charset_size.
  rewrite (any_same_chars (islower U) p q H),
    (any_same_chars (isupper U) p q H), (any_same_chars (isdigit U) p q H),
    (any_same_chars (fun c => char_in c punctuation) p q H),
    (any_same_chars (isspace U) p q H).
  reflexivity.
Qed.

Lemma charset_size_same_chars_witness :
  charset_size ascii_only (py "aab1") = charset_size ascii_only (py "1ba").
Proof.
  apply (charset_size_same_chars ascii_only (py "aab1") (py "1ba")).
  intros c. vm_compute. tauto.
Defined.

Lemma charset_size_app_le (U : UnicodeData) (p s : pystr) :
  charset_size U p <= charset_size U (p ++ s).
Proof.
  unfold charset_size, any. rewrite !existsb_app.
  destruct (existsb (islower U) p), (existsb (isupper U) p),
    (existsb (isdigit U) p), (existsb (fun c => char_in c punctuation) p),
    (existsb (isspace U) p);
    destruct (existsb (islower U) s), (existsb (isupper U) s),
      (existsb (isdigit U) s), (existsb (fun c => char_in c punctuation) s),
      (existsb (isspace U) s); vm_compute; discriminate.
Qed.

Lemma log2_le (x y : R) : (1 <= x)%R -> (x <= y)%R -> (0 <= log2 x <= log2 y)%R.
Proof.
  intros Hx Hxy. unfold log2. assert (H2 := ln_2_pos).
  assert (H0 : (0 <= ln x)%R).
  { destruct Hx as [Hx | <-]; [| rewrite ln_1; lra].
    rewrite <- ln_1. apply Rlt_le, ln_increasing; lra. }
  assert (Hle : (ln x <= ln y)%R).
  { destruct Hxy as [Hxy | <-]; [| lra].
    apply Rlt_le, ln_increasing; lra. }
  split.
  - apply Rmult_le_pos; [exact H0 | apply Rlt_le, Rinv_0_lt_compat, H2].
  - apply Rmult_le_compat_r; [apply Rlt_le, Rinv_0_lt_compat, H2 | exact Hle].
Qed.

Lemma entropy_bits_app_mono (U : UnicodeData) (p s : pystr) :
  (entropy_bits U p <= entropy_bits U (p ++ s))%R.
Proof.
  pose proof (charset_size_app_le U p s) as Hcs.
  unfold entropy_bits.
  destruct (charset_size U p <=? 1) eqn:Hp.
  - apply (entropy_bits_nonneg U (p ++ s)).
  - apply Z.leb_gt in Hp.
    destruct (charset_size U (p ++ s) <=? 1) eqn:Hps;
      [apply Z.leb_le in Hps; lia |].
    assert (Hlen : (0 <= IZR (len p) <= IZR (len (p ++ s)))%R).
    { unfold len. rewrite length_app. split; apply IZR_le; lia. }
    assert (H1 : (1 <= IZR (charset_size U p))%R) by (apply IZR_le; lia).
    pose proof (log2_le _ _ H1 (IZR_le _ _ Hcs)) as Hlog.
    apply Rmult_le_compat; lra.
Qed.

(** X3: adding characters at the end of a password never lowers its
    entropy estimate, and the estimate is never negative. *)
Theorem entropy_bits_app_le (U : UnicodeData) (p s : pystr) :
  (0 <= entropy_bits U p <= entropy_bits U (p ++ s))%R.
Proof.
  split; [apply entropy_bits_nonneg | apply entropy_bits_app_mono].
Qed.

(** X4: the entropy estimate is 0 exactly when the password holds no
    lowercase letter, no uppercase letter, no digit and no punctuation:
    the empty password, and any password made of whitespace or of
    characters outside the four classes, however long. *)
Theorem entropy_bits_zero_iff (U : UnicodeData) (password : pystr) :
  entropy_bits U password = 0%R <->
  any (islower U) password = false /\ any (isupper U) password = false /\
  any (isdigit U) password = false /\
  any (fun c => char_in c punctuation) password = false.
Proof.
  assert (Hlen : password = [] \/ 1 <= len password).
  { destruct password; [left; reflexivity | right; unfold len; simpl; lia]. }
  assert (Hzero : entropy_bits U password = 0%R <->
                  charset_size U password = 1).
  { pose proof (charset_size_cases U password) as Hcs.
    unfold entropy_bits. split.
    - intros H. destruct Hcs as [Hcs | Hcs]; [exact Hcs | exfalso].
      destruct (charset_size U password <=? 1) eqn:E;
        [apply Z.leb_le in E; lia |].
      destruct Hlen as [-> | Hlen]; [discriminate E |].
      assert (Hl : (1 <= IZR (len password))%R) by (apply IZR_le; exact Hlen).
      assert (Hlog : (3 <= log2 (IZR (charset_size U password)))%R).
      { destruct (log2_le 10 (IZR (charset_size U password))) as [_ Hle];
          [lra | apply IZR_le; lia |].
        pose proof (log2_lower_bound 10 3 1) as H10.
        replace (IZR 3 / IZR 1)%R with 3%R in H10 by lra.
        assert (3 <= log2 10)%R by (apply H10; lia). lra. }
      nra.
    - intros ->. reflexivity. }
  rewrite Hzero. unfold charset_size, any.
  destruct (existsb (islower U) password), (existsb (isupper U) password),
    (existsb (isdigit U) password),
    (existsb (fun c => char_in c punctuation) password),
    (existsb (isspace U) password); vm_compute; intuition congruence.
Qed.

(** X2: the charset size is 1 or lies between 10 and 95: it is never 0
    and never between 2 and 9, and 95 is reached with all five classes. *)
Theorem charset_size_range (U : UnicodeData) (password : pystr) :
  (charset_size U password = 1 \/ 10 <= charset_size U password <= 95) /\
  (any (islower U) password = true -> any (isupper U) password = true ->
   any (isdigit U) password = true ->
   any (fun c => char_in c punctuation) password = true ->
   any (isspace U) password = true -> charset_size U password = 95).
Proof.
  split; [apply charset_size_cases |].
  intros Hl Hu Hd Hp Hs. unfold charset_size.
  rewrite Hl, Hu, Hd, Hp, Hs. reflexivity.
Qed.

Lemma charset_size_range_witness :
  charset_size ascii_only (py "correct Horse 9!") = 95.
Proof.
  apply (proj2 (charset_size_range ascii_only (py "correct Horse 9!")));
    reflexivity.
Defined.

(** ** More on labels and crack times *)

Lemma strength_label_rank (bits : R) :
  ((bits < 28)%R /\ label_rank (strength_label bits) = 0) \/
  ((28 <= bits < 36)%R /\ label_rank (strength_label bits) = 1) \/
  ((36 <= bits < 60)%R /\ label_rank (strength_label bits) = 2) \/
  ((60 <= bits)%R /\ label_rank (strength_label bits) = 3).
Proof.
  unfold strength_label.
  destruct (Rlt_dec bits 28); [left; split; [lra | reflexivity] |].
  destruct (Rlt_dec bits 36); [right; left; split; [lra | reflexivity] |].
  destruct (Rlt_dec bits 60);
    [right; right; left; split; [lra | reflexivity] |].
  right; right; right. split; [lra | reflexivity].
Qed.

Lemma strength_label_rank_le (b1 b2 : R) :
  (b1 <= b2)%R ->
  label_rank (strength_label b1) <= label_rank (strength_label b2).
Proof.
  intros H.
  destruct (strength_label_rank b1) as [[H1 ->] | [[H1 ->] | [[H1 ->] | [H1 ->]]]];
    destruct (strength_label_rank b2)
      as [[H2 ->] | [[H2 ->] | [[H2 ->] | [H2 ->]]]];
    try lia; exfalso; lra.
Qed.

(** X5: the label never gets weaker when the bits grow; so adding
    characters at the end of a password never weakens its label. *)
Theorem strength_label_monotone (U : UnicodeData) (b1 b2 : R) (p s : pystr) :
  ((b1 <= b2)%R ->
   label_rank (strength_label b1) <= label_rank (strength_label b2)) /\
  label_rank (strength_label (entropy_bits U p)) <=
  label_rank (strength_label (entropy_bits U (p ++ s))).
Proof.
  split; [apply strength_label_rank_le |].
  apply strength_label_rank_le, entropy_bits_app_mono.
Qed.

Lemma strength_label_monotone_witness :
  label_rank (strength_label 30) <= label_rank (strength_label 61.5).
Proof.
  apply (proj1 (strength_label_monotone ascii_only 30 61.5 [] [])). lra.
Defined.



(** ** More on the advice *)

Section AdvisorMore.
Variable COMMON_PASSWORDS : gset pystr.
Variable U : UnicodeData.

Lemma contains_common_part_iff (password : pystr) :
  contains_common_part COMMON_PASSWORDS U password = true <->
  exists common : pystr,
    common ∈ COMMON_PASSWORDS /\ 3 <= len common /\
    exists a b : pystr, lower U password = a ++ common ++ b.
Proof.
  unfold contains_common_part. rewrite existsb_exists. split.
  - intros [common [Hin Htest]]. apply andb_true_iff in Htest as [Hsub Hlen].
    exists common. split; [apply elem_of_elements, list_elem_of_In, Hin |].
    split; [apply Z.leb_le, Hlen | apply str_in_infix, Hsub].
  - intros [common [Hin [Hlen Hsub]]]. exists common.
    split; [apply list_elem_of_In, elem_of_elements, Hin |].
    apply andb_true_iff.
    split; [apply str_in_infix, Hsub | apply Z.leb_le, Hlen].
Qed.

Lemma suggest_nice_iff (password : pystr) :
  suggest_improvements COMMON_PASSWORDS U password = [MSG_NICE] <->
  12 <= len password /\
  any (islower U) password = true /\ any (isupper U) password = true /\
  any (isdigit U) password = true /\
  any (fun c => char_in c punctuation) password = true /\
  is_common COMMON_PASSWORDS U password = false.
Proof.
  unfold suggest_improvements, append_if.
  destruct (Z.ltb_spec (len password) 12) as [H12 | H12];
    destruct (Z.leb_spec (len password) 4) as [H4 | H4]; try lia;
    destruct (any (islower U) password), (any (isupper U) password),
      (any (isdigit U) password),
      (any (fun c => char_in c punctuation) password),
      (is_common COMMON_PASSWORDS U password);
    simpl; split; intros H;
    try (vm_compute in H; discriminate H);
    try (exfalso; lia);
    try (intuition (try discriminate; try lia; fail));
    try reflexivity.
Qed.
End AdvisorMore.

(** X7: the substring check holds exactly when some entry of the common
    set with at least 3 characters occurs as a contiguous part of the
    lower-cased password, whatever the order in which the set is gone
    through; in particular an exact match of at least 3 characters is also
    a substring match. *)
Theorem contains_common_part_spec
    (COMMON_PASSWORDS : gset pystr) (U : UnicodeData) (password : pystr) :
  (contains_common_part COMMON_PASSWORDS U password = true <->
   exists common : pystr,
     common ∈ COMMON_PASSWORDS /\ 3 <= len common /\
     exists a b : pystr, lower U password = a ++ common ++ b) /\
  (is_common COMMON_PASSWORDS U password = true ->
   3 <= len (lower U password) ->
   contains_common_part COMMON_PASSWORDS U password = true).
Proof.
  split; [apply contains_common_part_iff |].
  intros Hcommon Hlen. apply contains_common_part_iff.
  exists (lower U password).
  split; [exact (proj1 (bool_decide_eq_true _) Hcommon) |].
  split; [exact Hlen |].
  exists [], []. rewrite app_nil_r. reflexivity.
Qed.

Lemma contains_common_part_spec_witness :
  contains_common_part FALLBACK_COMMON ascii_only (py "QWERTY") = true.
Proof.
  apply (proj2 (contains_common_part_spec FALLBACK_COMMON ascii_only
                  (py "QWERTY"))).
  - vm_compute. reflexivity.
  - vm_compute. discriminate.
Defined.

(** X8: the single affirmation is returned exactly for a password of at
    least 12 characters that holds a lowercase letter, an uppercase
    letter, a digit and a punctuation character and whose lower-cased
    form is not in the common set. *)
Theorem suggest_improvements_nice_iff
    (COMMON_PASSWORDS : gset pystr) (U : UnicodeData) (password : pystr) :
  suggest_improvements COMMON_PASSWORDS U password = [MSG_NICE] <->
  12 <= len password /\
  any (islower U) password = true /\ any (isupper U) password = true /\
  any (isdigit U) password = true /\
  any (fun c => char_in c punctuation) password = true /\
  is_common COMMON_PASSWORDS U password = false.
Proof. apply suggest_nice_iff. Qed.

(** X9: a password that gets only the affirmation has a charset size of
    at least 94 and the label Very strong. *)
Theorem suggest_improvements_nice_strong
    (COMMON_PASSWORDS : gset pystr) (U : UnicodeData) (password : pystr) :
  suggest_improvements COMMON_PASSWORDS U password = [MSG_NICE] ->
  94 <= charset_size U password /\
  strength_label (entropy_bits U password) = Very_strong.
Proof.
  intros H. apply suggest_nice_iff in H as [Hlen [Hl [Hu [Hd [Hp _]]]]].
  assert (Hcs : 94 <= charset_size U password).
  { unfold charset_size. rewrite Hl, Hu, Hd, Hp.
    destruct (any (isspace U) password); vm_compute; discriminate. }
  split; [exact Hcs |].
  apply strength_label_from_60. unfold entropy_bits.
  destruct (charset_size U password <=? 1) eqn:E;
    [apply Z.leb_le in E; lia |].
  assert (Hl12 : (12 <= IZR (len password))%R) by (apply IZR_le; exact Hlen).
  assert (Hlog : (13 / 2 <= log2 (IZR (charset_size U password)))%R).
  { destruct (log2_le 94 (IZR (charset_size U password))) as [_ Hle];
      [lra | apply IZR_le; exact Hcs |].
    pose proof (log2_lower_bound 94 13 2) as H94.
    assert (IZR 13 / IZR 2 <= log2 94)%R by (apply H94; lia). lra. }
  nra.
Qed.

Lemma suggest_improvements_nice_strong_witness :
  94 <= charset_size ascii_only (py "Tr0ub4dor&3-horse") /\
  strength_label (entropy_bits ascii_only (py "Tr0ub4dor&3-horse")) =
  Very_strong.
Proof.
  apply (suggest_improvements_nice_strong FALLBACK_COMMON ascii_only
           (py "Tr0ub4dor&3-horse")).
  vm_compute. reflexivity.
Defined.

(** ** More on the loader *)

Section LoaderMore.
Variable U : UnicodeData.

Lemma loaded_words_iff (f : file_lines) (w : pystr) :
  unreadable f = false ->
  forallb (blank_or_comment U) (lines_of f) = false ->
  (w ∈ load_common_passwords U (Opened f) <->
   exists line : pystr,
     In line (lines_of f) /\ blank_or_comment U line = false /\
     w = lower U (strip U line)).
Proof.
  intros Hr Hsome. rewrite (load_common_passwords_words U f Hr Hsome).
  rewrite elem_of_list_to_set, list_elem_of_In, in_map_iff. split.
  - intros [line [Hw Hin]]. apply filter_In in Hin as [Hin Hkeep].
    exists line. apply negb_true_iff in Hkeep. auto.
  - intros [line [Hin [Hkeep ->]]]. exists line.
    split; [reflexivity |]. apply filter_In.
    split; [exact Hin | apply negb_true_iff, Hkeep].
Qed.
End LoaderMore.

(** X10: when the word list can be read and holds a line that is neither
    blank nor a comment, the loaded set holds exactly the lower-cased,
    stripped forms of such lines: nothing of the fallback set is mixed in,
    and blank and comment lines add nothing. *)
Theorem load_common_passwords_from_file
    (U : UnicodeData) (f : file_lines) (w : pystr) :
  unreadable f = false ->
  forallb (blank_or_comment U) (lines_of f) = false ->
  (w ∈ load_common_passwords U (Opened f) <->
   exists line : pystr,
     In line (lines_of f) /\ blank_or_comment U line = false /\
     w = lower U (strip U line)).
Proof. apply loaded_words_iff. Qed.

Lemma load_common_passwords_from_file_witness :
  py "letmein" ∈
  load_common_passwords ascii_only
    (Opened (Line (py "# my list") (Line (py "  LetMeIn ") Eof))) <->
  exists line : pystr,
    In line (lines_of (Line (py "# my list") (Line (py "  LetMeIn ") Eof))) /\
    blank_or_comment ascii_only line = false /\
    py "letmein" = lower ascii_only (strip ascii_only line).
Proof.
  apply (load_common_passwords_from_file ascii_only
           (Line (py "# my list") (Line (py "  LetMeIn ") Eof))
           (py "letmein")); vm_compute; reflexivity.
Defined.

(** X11: with a readable word list that holds a line neither blank nor a
    comment, a password is reported as common exactly when its lower-cased
    form is the lower-cased, stripped form of such a line.  The line is
    stripped, the password is not: with the one line [  LetMeIn ] in the
    list, the password [LetMeIn] is reported as common, and the password
    [  LetMeIn ], equal to the line character for character, is not. *)
Theorem listed_password_is_common
    (U : UnicodeData) (f : file_lines) (password : pystr) :
  (unreadable f = false ->
   forallb (blank_or_comment U) (lines_of f) = false ->
   (is_common (load_common_passwords U (Opened f)) U password = true <->
    exists line : pystr,
      In line (lines_of f) /\ blank_or_comment U line = false /\
      lower U password = lower U (strip U line))) /\
  is_common (load_common_passwords ascii_only
               (Opened (Line (py "  LetMeIn ") Eof)))
    ascii_only (py "LetMeIn") = true /\
  is_common (load_common_passwords ascii_only
               (Opened (Line (py "  LetMeIn ") Eof)))
    ascii_only (py "  LetMeIn ") = false.
Proof.
  split; [| split; vm_compute; reflexivity].
  intros Hr Hsome. unfold is_common. rewrite bool_decide_eq_true.
  apply (loaded_words_iff U f _ Hr Hsome).
Qed.

Lemma listed_password_is_common_witness :
  is_common
    (load_common_passwords ascii_only
       (Opened (Line (py "# my list") (Line (py "  LetMeIn ") Eof))))
    ascii_only (py "LETMEIN") = true <->
  exists line : pystr,
    In line (lines_of (Line (py "# my list") (Line (py "  LetMeIn ") Eof))) /\
    blank_or_comment ascii_only line = false /\
    lower ascii_only (py "LETMEIN") = lower ascii_only (strip ascii_only line).
Proof.
  apply (proj1 (listed_password_is_common ascii_only
                  (Line (py "# my list") (Line (py "  LetMeIn ") Eof))
                  (py "LETMEIN"))); vm_compute; reflexivity.
Defined.

(** ** More on durations *)

Lemma human_interpretation_refines (seconds : float) :
  human_interpretation seconds =
  unit_interpretation (spec_unit (exact_of seconds)).
Proof.
  unfold human_interpretation, spec_unit, spec_units, flt_int.
  cbn [find spec_limit].
  change (24 * 60 * 60) with 86400. change (60 * 60) with 3600.
  change (365 * 86400) with 31536000.
  change (100 * 365 * 86400) with 3153600000.
  change (100 * 31536000) with 3153600000.
  destruct (exact_lt (exact_of seconds) (exact_int 1)); [reflexivity |].
  destruct (exact_lt (exact_of seconds) (exact_int 60)); [reflexivity |].
  destruct (exact_lt (exact_of seconds) (exact_int 3600)); [reflexivity |].
  destruct (exact_lt (exact_of seconds) (exact_int 86400)); [reflexivity |].
  destruct (exact_lt (exact_of seconds) (exact_int 31536000)); [reflexivity |].
  destruct (exact_lt (exact_of seconds) (exact_int 3153600000)); reflexivity.
Qed.

(** X12: [human_interpretation] and [human_readable] cut the time line at
    the same six thresholds: for every duration the sentence of the first
    is the one that goes with the unit printed by the second (instantly
    with ms, under a minute with s, under an hour with min, within a day
    with h, months/years with days, very long with years, practically
    impossible with centuries). *)
Theorem human_interpretation_matches_unit (seconds : float) :
  exists u : time_unit,
    human_interpretation seconds = unit_interpretation u /\
    human_readable seconds =
    (format_f (spec_decimals u) (spec_scaled u seconds) ++ " " ++
     spec_suffix u)%string.
Proof.
  exists (spec_unit (exact_of seconds)).
  split; [apply human_interpretation_refines | apply human_readable_refines].
Qed.

(** ** More on the visual bar *)

Lemma percentage_nan : percentage S754_nan = S754_nan.
Proof. reflexivity. Qed.

(** X13: the percentage drawn is a number between 0 and 100 for every
    bits value that is a number, the infinities included; it is a NaN
    only for a NaN. *)
Theorem percentage_clamped (bits : float) :
  (bits <> S754_nan ->
   exists q : Q, exact_of (percentage bits) = Fin q /\ (0 <= q <= 100)%Q) /\
  (percentage bits = S754_nan <-> bits = S754_nan).
Proof.
  split; [apply percentage_range |].
  split.
  - intros Hnan. destruct bits as [s | s | | s m e]; try reflexivity;
      exfalso;
      match type of Hnan with
      | percentage ?b = _ =>
          destruct (percentage_range b) as [q [Hq _]];
          [discriminate | rewrite Hnan in Hq; discriminate Hq]
      end.
  - intros ->. reflexivity.
Qed.

Lemma percentage_clamped_witness :
  exists q : Q,
    exact_of (percentage (S754_infinity false)) = Fin q /\ (0 <= q <= 100)%Q.
Proof.
  apply (proj1 (percentage_clamped (S754_infinity false))). discriminate.
Defined.

(** X14: without the plotting library, for every bits value that is a
    number, the run returns after printing one more line, the text bar: 50
    cells between the brackets, [blocks] of them filled, with [blocks] the
    floor of half the percentage; no drawing is attempted. *)
Theorem check_password_and_show_text_bar
    (plt : matplotlib) (report : list string) (bits : float) (label : string)
    (w : world) :
  MATPLOTLIB_AVAILABLE plt = false -> bits <> S754_nan ->
  exists blocks : Z,
    0 <= blocks <= 50 /\
    int_floordiv2 (percentage bits) = Some blocks /\
    String.length (times "#" blocks ++ times "-" (50 - blocks)) = 50%nat /\
    check_password_and_show plt report bits label true w =
    Returned {| stdout := stdout w ++ report ++
                          [ascii_bar blocks (percentage bits)];
                attempts := attempts w |}.
Proof.
  intros Hplt Hbits.
  destruct (percentage_range bits Hbits) as [q [Hq Hrange]].
  destruct (int_floordiv2_range _ q Hq Hrange) as [blocks [Hb Hbr]].
  exists blocks. split; [exact Hbr |]. split; [exact Hb |].
  split; [apply bar_width, Hbr |].
  unfold check_password_and_show. rewrite print_all_stdout.
  unfold show_strength_visual. rewrite Hplt, Hb.
  unfold print. simpl. rewrite <- app_assoc. reflexivity.
Qed.

Lemma check_password_and_show_text_bar_witness :
  exists blocks : Z,
    0 <= blocks <= 50 /\
    int_floordiv2 (percentage (of_int 40)) = Some blocks /\
    String.length (times "#" blocks ++ times "-" (50 - blocks)) = 50%nat /\
    check_password_and_show no_matplotlib [] (of_int 40) "Good" true start =
    Returned {| stdout := stdout start ++ [] ++
                          [ascii_bar blocks (percentage (of_int 40))];
                attempts := attempts start |}.
Proof.
  apply (check_password_and_show_text_bar no_matplotlib [] (of_int 40)
           "Good" start); [reflexivity | discriminate].
Defined.

(** X15: with the plotting library present the text bar is never printed:
    whatever drawing does, the output is the report and nothing more, and
    drawing is tried at most twice.  The handler is [except Exception]: a
    second attempt is made only when the first one raises an exception of
    a subclass of [Exception], and the run returns exactly when the first
    attempt succeeds, or the first raises such an exception and the second
    succeeds.  An exception outside [Exception] ([KeyboardInterrupt],
    [SystemExit]) raised by the first attempt leaves the function at once,
    after one attempt.  With [interactive] false nothing is drawn or
    printed after the report. *)
Theorem check_password_and_show_graphical
    (plt : matplotlib) (report : list string) (bits : float) (label : string)
    (w : world) :
  (MATPLOTLIB_AVAILABLE plt = true ->
   let r := check_password_and_show plt report bits label true w in
   stdout (result_world r) = stdout w ++ report /\
   (attempts (result_world r) <= attempts w + 2)%nat /\
   (returned r = true <->
    draw plt (attempts w) = None \/
    ((exists c : string, draw plt (attempts w) = Some (Exception c)) /\
     draw plt (S (attempts w)) = None)) /\
   (forall c : string,
      draw plt (attempts w) = Some (BaseException c) ->
      r = Raised (BaseException c)
            {| stdout := stdout w ++ report;
               attempts := S (attempts w) |})) /\
  check_password_and_show plt report bits label false w =
  Returned {| stdout := stdout w ++ report; attempts := attempts w |}.
Proof.
  split.
  - intros Hplt. unfold check_password_and_show.
    rewrite print_all_stdout. unfold show_strength_visual.
    rewrite Hplt. cbn [attempts stdout].
    destruct (draw plt (attempts w)) as [[c1 | c1] |] eqn:E1.
    + cbn [attempts stdout].
      destruct (draw plt (S (attempts w))) as [e2 |] eqn:E2; cbn.
      * split; [reflexivity |]. split; [lia |].
        split; [| intros c Hc; discriminate Hc].
        split; [discriminate |].
        intros [H | [_ H]]; discriminate H.
      * split; [reflexivity |]. split; [lia |].
        split; [| intros c Hc; discriminate Hc].
        split; [| reflexivity].
        intros _. right. split; [exists c1 |]; reflexivity.
    + cbn. split; [reflexivity |]. split; [lia |].
      split.
      * split; [discriminate |].
        intros [H | [[c Hc] _]]; [discriminate H | discriminate Hc].
      * intros c Hc. injection Hc as ->. reflexivity.
    + cbn. split; [reflexivity |]. split; [lia |].
      split; [| intros c Hc; discriminate Hc].
      split; [| reflexivity]. intros _. left. reflexivity.
  - unfold check_password_and_show. rewrite print_all_stdout. reflexivity.
Qed.

Lemma check_password_and_show_graphical_witness :
  let r := check_password_and_show interrupted_display [] (of_int 40) "Good"
             true start in
  stdout (result_world r) = stdout start ++ [] /\
  (attempts (result_world r) <= attempts start + 2)%nat /\
  (returned r = true <->
   draw interrupted_display (attempts start) = None \/
   ((exists c : string,
       draw interrupted_display (attempts start) = Some (Exception c)) /\
    draw interrupted_display (S (attempts start)) = None)) /\
  (forall c : string,
     draw interrupted_display (attempts start) = Some (BaseException c) ->
     r = Raised (BaseException c)
           {| stdout := stdout start ++ [];
              attempts := S (attempts start) |}).
Proof.
  apply (proj1 (check_password_and_show_graphical interrupted_display []
                  (of_int 40) "Good" start)).
  reflexivity.
Defined.

(** ** The report and the command line *)

Section ReportFacts.
Variable plt : matplotlib.
Variable M : Report.libm.
Variable COMMON_PASSWORDS : gset pystr.
Variable U : UnicodeData.

Lemma print_all_world (lines : list string) (w : world) :
  Report.print_all lines w =
  {| stdout := stdout w ++ lines; attempts := attempts w |}.
Proof. apply print_all_stdout. Qed.

Lemma print_scenarios_overflow
    (bits : float) (desc : string) (r : Z) (rest : list (string * Z))
    (w : world) :
  Report.libm_pow2 M bits = None ->
  Report.print_scenarios M bits ((desc, r) :: rest) w =
  Raised (Exception "OverflowError") w.
Proof.
  intros H. simpl. unfold Report.avg_crack_time_seconds_from_bits.
  rewrite H. reflexivity.
Qed.

Lemma print_scenarios_lines
    (bits combos : float) (scenarios : list (string * Z)) (w : world) :
  Report.libm_pow2 M bits = Some combos ->
  forallb (fun s => negb (snd s =? 0)) scenarios = true ->
  exists lines : list string,
    length lines = length scenarios /\
    Report.print_scenarios M bits scenarios w =
    Returned {| stdout := stdout w ++ lines; attempts := attempts w |}.
Proof.
  intros Hpow. revert w.
  induction scenarios as [| [desc r] rest IH]; intros w Hrates.
  - exists []. split; [reflexivity |]. simpl. rewrite app_nil_r.
    destruct w; reflexivity.
  - simpl in Hrates. apply andb_true_iff in Hrates as [Hr Hrest].
    apply negb_true_iff in Hr. simpl.
    unfold Report.avg_crack_time_seconds_from_bits. rewrite Hpow, Hr.
    destruct (IH (print
                    (Report.scenario_line desc r
                       (fdiv (fdiv combos (of_int 2)) (of_int r))) w) Hrest)
      as [lines [Hlen Hrun]].
    exists (Report.scenario_line desc r
              (fdiv (fdiv combos (of_int 2)) (of_int r)) :: lines).
    split; [simpl; rewrite Hlen; reflexivity |].
    rewrite Hrun. unfold print. simpl. rewrite <- app_assoc. reflexivity.
Qed.

Lemma print_world (line : string) (w : world) :
  print line w = {| stdout := stdout w ++ [line]; attempts := attempts w |}.
Proof. reflexivity. Qed.

Lemma SCENARIOS_rates :
  forallb (fun s => negb (snd s =? 0)) Report.SCENARIOS = true.
Proof. reflexivity. Qed.

Lemma check_password_and_show_overflows (password : pystr) (interactive : bool)
    (w : world) :
  Report.libm_pow2 M (Report.entropy_bits M U password) = None ->
  exists lines : list string,
    Report.check_password_and_show plt M COMMON_PASSWORDS U password
      interactive w =
    Raised (Exception "OverflowError")
      {| stdout := stdout w ++ lines; attempts := attempts w |} /\
    length lines =
    (if is_common COMMON_PASSWORDS U password ||
        contains_common_part COMMON_PASSWORDS U password
     then 5 else 4)%nat.
Proof.
  intros Hpow. unfold Report.check_password_and_show. cbv zeta.
  change Report.SCENARIOS with
    (("Online, very limited (login forms)"%string, 10) ::
     tl Report.SCENARIOS).
  rewrite print_scenarios_overflow by exact Hpow.
  destruct (is_common COMMON_PASSWORDS U password);
    [| destruct (contains_common_part COMMON_PASSWORDS U password)];
    eexists; (split; [unfold print; cbn [stdout attempts];
                      repeat rewrite <- app_assoc; reflexivity |
                      reflexivity]).
Qed.

Lemma visual_step_eq (lines : list string) (bits : float) (label : string)
    (interactive : bool) (w : world) :
  check_password_and_show plt lines bits label interactive w =
  let w1 := {| stdout := stdout w ++ lines; attempts := attempts w |} in
  if interactive then
    match show_strength_visual plt bits label w1 with
    | Raised (Exception _) w' => show_strength_visual plt bits label w'
    | Raised e w' => Raised e w'
    | Returned w' => Returned w'
    end
  else Returned w1.
Proof.
  unfold check_password_and_show. rewrite print_all_stdout. reflexivity.
Qed.

Lemma check_password_and_show_runs (password : pystr) (interactive : bool)
    (w : world) (combos : float) :
  Report.libm_pow2 M (Report.entropy_bits M U password) = Some combos ->
  exists lines : list string,
    Report.check_password_and_show plt M COMMON_PASSWORDS U password
      interactive w =
    check_password_and_show plt lines (Report.entropy_bits M U password)
      (label_text
         (Report.strength_label (Report.entropy_bits M U password)))
      interactive w /\
    length lines =
    ((if is_common COMMON_PASSWORDS U password ||
         contains_common_part COMMON_PASSWORDS U password
      then 13 else 12) +
     length (suggest_improvements COMMON_PASSWORDS U password))%nat.
Proof.
  intros Hpow. unfold Report.check_password_and_show. cbv zeta.
  set (bits := Report.entropy_bits M U password) in *.
  set (label := Report.strength_label bits).
  set (tips := suggest_improvements COMMON_PASSWORDS U password).
  match goal with
  | |- context [Report.print_scenarios M bits Report.SCENARIOS ?w0] =>
      destruct (print_scenarios_lines bits combos Report.SCENARIOS w0 Hpow
                  SCENARIOS_rates) as [scen [Hlen Hrun]];
      rewrite Hrun
  end.
  rewrite print_all_world. unfold print. cbn [stdout attempts].
  destruct (is_common COMMON_PASSWORDS U password);
    [| destruct (contains_common_part COMMON_PASSWORDS U password)];
    cbn [orb stdout attempts]; repeat rewrite <- app_assoc;
    match goal with
    | |- context [show_strength_visual plt bits _
                    {| stdout := stdout w ++ ?L; attempts := _ |}] =>
        exists L
    end;
    (split;
     [rewrite visual_step_eq; reflexivity |
      change (length Report.SCENARIOS) with 4%nat in Hlen;
      repeat (rewrite length_app || rewrite length_cons); cbn [length];
      rewrite Hlen; subst tips; lia]).
Qed.
End ReportFacts.

(** X16: an [OverflowError] of [2 ** bits] is not caught: the run stops
    in the first scenario, after the status, length and score lines, the
    warning if there is one and the heading of the scenarios (4 or 5
    lines); no scenario, advice or tip is printed and nothing is drawn. *)
Theorem check_password_and_show_overflow
    (plt : matplotlib) (M : Report.libm) (COMMON_PASSWORDS : gset pystr)
    (U : UnicodeData) (password : pystr) (interactive : bool) (w : world) :
  Report.libm_pow2 M (Report.entropy_bits M U password) = None ->
  exists lines : list string,
    Report.check_password_and_show plt M COMMON_PASSWORDS U password
      interactive w =
    Raised (Exception "OverflowError")
      {| stdout := stdout w ++ lines; attempts := attempts w |} /\
    length lines =
    (if is_common COMMON_PASSWORDS U password ||
        contains_common_part COMMON_PASSWORDS U password
     then 5 else 4)%nat.
Proof. apply check_password_and_show_overflows. Qed.

Lemma check_password_and_show_overflow_witness :
  exists lines : list string,
    Report.check_password_and_show broken_display Report.overflowing_libm
      FALLBACK_COMMON ascii_only (py "correct horse") true start =
    Raised (Exception "OverflowError")
      {| stdout := stdout start ++ lines; attempts := attempts start |} /\
    length lines =
    (if is_common FALLBACK_COMMON ascii_only (py "correct horse") ||
        contains_common_part FALLBACK_COMMON ascii_only (py "correct horse")
     then 5 else 4)%nat.
Proof.
  apply (check_password_and_show_overflow broken_display
           Report.overflowing_libm FALLBACK_COMMON ascii_only
           (py "correct horse") true start).
  reflexivity.
Defined.

(** X17: without the plotting library, when [2 ** bits] does not overflow
    and the score is a number, the whole run returns: it prints 12 lines,
    one more for a warning, one per suggestion, and last the text bar;
    nothing is drawn. *)
Theorem check_password_and_show_completes
    (plt : matplotlib) (M : Report.libm) (COMMON_PASSWORDS : gset pystr)
    (U : UnicodeData) (password : pystr) (w : world) (combos : float) :
  MATPLOTLIB_AVAILABLE plt = false ->
  Report.libm_pow2 M (Report.entropy_bits M U password) = Some combos ->
  Report.entropy_bits M U password <> S754_nan ->
  exists (lines : list string) (blocks : Z),
    Report.check_password_and_show plt M COMMON_PASSWORDS U password true w =
    Returned
      {| stdout := stdout w ++ lines ++
                   [ascii_bar blocks
                      (percentage (Report.entropy_bits M U password))];
         attempts := attempts w |} /\
    0 <= blocks <= 50 /\
    length lines =
    ((if is_common COMMON_PASSWORDS U password ||
         contains_common_part COMMON_PASSWORDS U password
      then 13 else 12) +
     length (suggest_improvements COMMON_PASSWORDS U password))%nat.
Proof.
  intros Hplt Hpow Hbits.
  destruct (check_password_and_show_runs plt M COMMON_PASSWORDS U password
              true w combos Hpow) as [lines [Hrun Hlen]].
  destruct (check_password_and_show_text plt lines _
              (label_text
                 (Report.strength_label (Report.entropy_bits M U password)))
              w Hplt Hbits) as [blocks [Hblocks Hshow]].
  exists lines, blocks. rewrite Hrun, Hshow. auto.
Qed.

Lemma check_password_and_show_completes_witness :
  exists (lines : list string) (blocks : Z),
    Report.check_password_and_show no_matplotlib Report.toy_libm
      FALLBACK_COMMON ascii_only (py "Password1!") true start =
    Returned
      {| stdout := stdout start ++ lines ++
                   [ascii_bar blocks
                      (percentage
                         (Report.entropy_bits Report.toy_libm ascii_only
                            (py "Password1!")))];
         attempts := attempts start |} /\
    0 <= blocks <= 50 /\
    length lines =
    ((if is_common FALLBACK_COMMON ascii_only (py "Password1!") ||
         contains_common_part FALLBACK_COMMON ascii_only (py "Password1!")
      then 13 else 12) +
     length (suggest_improvements FALLBACK_COMMON ascii_only
               (py "Password1!")))%nat.
Proof.
  eapply (check_password_and_show_completes no_matplotlib Report.toy_libm
            FALLBACK_COMMON ascii_only (py "Password1!") start).
  - reflexivity.
  - vm_compute. reflexivity.
  - vm_compute. discriminate.
Defined.

Lemma same_profile_charset (C : gset pystr) (U : UnicodeData) (p q : pystr) :
  Report.same_profile C U p q -> charset_size U p = charset_size U q.
Proof.
  intros [_ [Hl [Hu [Hd [Hp [Hs _]]]]]]. unfold charset_size.
  rewrite Hl, Hu, Hd, Hp, Hs. reflexivity.
Qed.

Lemma same_profile_suggestions (C : gset pystr) (U : UnicodeData)
    (p q : pystr) :
  Report.same_profile C U p q ->
  suggest_improvements C U p = suggest_improvements C U q.
Proof.
  intros [Hlen [Hl [Hu [Hd [Hp [_ [Hc _]]]]]]]. unfold suggest_improvements.
  rewrite Hlen, Hl, Hu, Hd, Hp, Hc. reflexivity.
Qed.

(** X18: the report shows of a password only its length, which character
    classes occur in it and the two answers about the common set: two
    passwords that agree on these give the same run, line for line, with
    any C library, plotting library and starting state. *)
Theorem check_password_and_show_profile
    (plt : matplotlib) (M : Report.libm) (COMMON_PASSWORDS : gset pystr)
    (U : UnicodeData) (p q : pystr) (interactive : bool) (w : world) :
  Report.same_profile COMMON_PASSWORDS U p q ->
  Report.check_password_and_show plt M COMMON_PASSWORDS U p interactive w =
  Report.check_password_and_show plt M COMMON_PASSWORDS U q interactive w.
Proof.
  intros H.
  pose proof (same_profile_charset _ _ _ _ H) as Hcs.
  pose proof (same_profile_suggestions _ _ _ _ H) as Htips.
  destruct H as [Hlen [_ [_ [_ [_ [_ [Hc Hpart]]]]]]].
  assert (Hbits : Report.entropy_bits M U p = Report.entropy_bits M U q).
  { unfold Report.entropy_bits. rewrite Hcs, Hlen. reflexivity. }
  unfold Report.check_password_and_show.
  rewrite Hbits, Hlen, Hc, Hpart, Htips. reflexivity.
Qed.

Lemma check_password_and_show_profile_witness :
  Report.check_password_and_show no_matplotlib Report.toy_libm FALLBACK_COMMON
    ascii_only (py "Blue-Kettle-42") true start =
  Report.check_password_and_show no_matplotlib Report.toy_libm FALLBACK_COMMON
    ascii_only (py "9?zebra!QUILTy") true start.
Proof.
  apply (check_password_and_show_profile no_matplotlib Report.toy_libm
           FALLBACK_COMMON ascii_only (py "Blue-Kettle-42")
           (py "9?zebra!QUILTy") true start).
  unfold Report.same_profile.
  split; [| split; [| split; [| split; [| split; [| split; [| split]]]]]];
    vm_compute; reflexivity.
Defined.

(** X19: at a terminal, an empty password ends the run after the three
    opening lines and the farewell: no report is made and nothing is
    drawn, whether the empty string came from [getpass] or, after
    [getpass] raised an exception of a subclass of [Exception], from
    [input]; an exception of [input] is not caught and ends the run after
    the three opening lines.  The handler is [except Exception]: an
    exception of [getpass] outside [Exception] ([KeyboardInterrupt] at the
    prompt) is not caught either, [input] is not consulted, and the run
    ends with that exception after the three opening lines. *)
Theorem main_without_password
    (plt : matplotlib) (M : Report.libm) (COMMON_PASSWORDS : gset pystr)
    (U : UnicodeData) (t : Report.terminal) (w : world) :
  Report.isatty t = true ->
  ((Report.getpass_reply t = inr [] \/
    (exists c : string, Report.getpass_reply t = inl (Exception c)) /\
    Report.input_reply t = inr []) ->
   exists opening : list string,
     length opening = 3%nat /\
     Report.main plt M COMMON_PASSWORDS U t w =
     Returned {| stdout := stdout w ++ opening ++
                           ["No password entered. Bye."%string];
                 attempts := attempts w |}) /\
  (forall (c1 : string) (e2 : exn),
     Report.getpass_reply t = inl (Exception c1) ->
     Report.input_reply t = inl e2 ->
     exists opening : list string,
       length opening = 3%nat /\
       Report.main plt M COMMON_PASSWORDS U t w =
       Raised e2 {| stdout := stdout w ++ opening;
                    attempts := attempts w |}) /\
  (forall c : string,
     Report.getpass_reply t = inl (BaseException c) ->
     exists opening : list string,
       length opening = 3%nat /\
       Report.main plt M COMMON_PASSWORDS U t w =
       Raised (BaseException c) {| stdout := stdout w ++ opening;
                                   attempts := attempts w |}).
Proof.
  intros Htty. unfold Report.main. rewrite Htty. cbv zeta.
  unfold print. cbn [stdout attempts]. split; [| split].
  - intros [Hget | [[c Hget] Hin]]; rewrite Hget; [| rewrite Hin];
      cbn [stdout attempts]; repeat rewrite <- app_assoc;
      match goal with
      | |- context [stdout w ++ [?a] ++ [?b] ++ [?c] ++ _] =>
          exists [a; b; c]
      end; (split; reflexivity).
  - intros c1 e2 Hget Hin. rewrite Hget, Hin.
    repeat rewrite <- app_assoc.
    match goal with
    | |- context [stdout w ++ [?a] ++ [?b] ++ [?c]] => exists [a; b; c]
    end.
    split; reflexivity.
  - intros c Hget. rewrite Hget.
    repeat rewrite <- app_assoc.
    match goal with
    | |- context [stdout w ++ [?a] ++ [?b] ++ [?c]] => exists [a; b; c]
    end.
    split; reflexivity.
Qed.

Lemma main_without_password_witness :
  exists opening : list string,
    length opening = 3%nat /\
    Report.main broken_display Report.toy_libm FALLBACK_COMMON ascii_only
      {| Report.isatty := true;
         Report.getpass_reply := inl (Exception "GetPassWarning");
         Report.input_reply := inr [] |} start =
    Returned {| stdout := stdout start ++ opening ++
                          ["No password entered. Bye."%string];
                attempts := attempts start |}.
Proof.
  apply (proj1 (main_without_password broken_display Report.toy_libm
                  FALLBACK_COMMON ascii_only
                  {| Report.isatty := true;
                     Report.getpass_reply := inl (Exception "GetPassWarning");
                     Report.input_reply := inr [] |} start eq_refl)).
  right. split; [eexists; reflexivity | reflexivity].
Defined.

Lemma Q2R_inject_Z (k : Z) : Q2R (inject_Z k) = IZR k.
Proof.
  unfold Q2R, inject_Z. cbn [Qnum Qden]. rewrite Rinv_1. apply Rmult_1_r.
Qed.

Lemma flt_int_Rlt (bits : float) (q : Q) (k : Z) :
  exact_of bits = Fin q -> (flt_int bits k = true <-> (Q2R q < IZR k)%R).
Proof.
  intros Hq. unfold flt_int, exact_int. rewrite Hq, exact_lt_Fin.
  rewrite <- Q2R_inject_Z. split; [apply Qlt_Rlt | apply Rlt_Qlt].
Qed.

(** X20: on a float that is a number, the label decided by the float
    comparisons is the label of the real number the float stands for; an
    infinite score is Very strong or Weak by its sign, and a NaN score is
    Very strong. *)
Theorem strength_label_float (bits : float) :
  (forall q : Q, exact_of bits = Fin q ->
     Report.strength_label bits = strength_label (Q2R q)) /\
  Report.strength_label (S754_infinity false) = Very_strong /\
  Report.strength_label (S754_infinity true) = Weak /\
  Report.strength_label S754_nan = Very_strong.
Proof.
  split; [| repeat split].
  intros q Hq. unfold Report.strength_label, strength_label.
  pose proof (flt_int_Rlt bits q 28 Hq) as H28.
  pose proof (flt_int_Rlt bits q 36 Hq) as H36.
  pose proof (flt_int_Rlt bits q 60 Hq) as H60.
  destruct (flt_int bits 28), (flt_int bits 36), (flt_int bits 60);
    destruct (Rlt_dec (Q2R q) 28), (Rlt_dec (Q2R q) 36),
      (Rlt_dec (Q2R q) 60); try reflexivity; exfalso;
    repeat match goal with
           | H : _ <-> _ |- _ => destruct H
           end;
    try (assert (true = true) by reflexivity);
    try tauto; try (intuition discriminate); try lra.
Qed.

Lemma strength_label_float_witness :
  exists q : Q,
    exact_of (of_int 40) = Fin q /\
    Report.strength_label (of_int 40) = strength_label (Q2R q).
Proof.
  eexists. split; [reflexivity |].
  apply (proj1 (strength_label_float (of_int 40))). reflexivity.
Defined.
